(** * PDF-Intelligence: the document-analysis pipeline of [backend.py]

    A shallow embedding of the analysis functions of [src/backend.py]
    ([detect_charts], [clean_text], [extract_entities], [summarize_text],
    [analyze_document_structure], [extract_images_from_pdf] and the
    [analyze_pdf] view) together with the properties of the pipeline.

    Conventions of the embedding:
    - a Python [str] is a list of characters; a character is a code point
      in the Latin-1 range [0..255] (type [ascii]), classified as CPython
      classifies these code points ([str.isspace], [str.isupper],
      [str.islower], [str.lower], and the classes [\s], [\w], [\d] of [re]);
    - a NumPy [uint8] value is a [Z] with its wrap-around written out, a
      [float64] is a primitive binary64 float;
    - an exception is a value of [exn]; code that can raise returns a
      [result]; [try/except Exception] is a [match] on that result;
    - PyMuPDF, Pillow, pytesseract, base64, spaCy and werkzeug are external:
      what they return is taken from the class [Externals] and from the
      fields of the opened document. *)

From Stdlib Require Import ZArith NArith Ascii String PrimFloat SpecFloat FloatOps.
From Stdlib Require Import FloatAxioms.
From stdpp Require Import base option list strings gmap sorting.

#[local] Set Warnings "-abstract-large-number".

Local Open Scope Z_scope.

(** ** Python strings *)

Definition str := list ascii.
Definition bytes := list Byte.byte.

(** A string literal of the source. *)
Definition py (s : string) : str := list_ascii_of_string s.

Module Char.

Definition code (c : ascii) : N := N_of_ascii c.

Definition between (lo hi : N) (c : ascii) : bool :=
  ((lo <=? code c) && (code c <=? hi))%N.

Definition eqc (n : N) (c : ascii) : bool := (code c =? n)%N.

(** [str.isspace] of one character, which is also the class [\s] of [re]
    on [str] patterns. *)
Definition isspace (c : ascii) : bool :=
  between 9 13 c || between 28 32 c || eqc 133 c || eqc 160 c.

(** The classes [[0-9]], [[A-Z]], [[a-z]] of the patterns; [\d] matches
    the same characters as [[0-9]] in this range. *)
Definition digit (c : ascii) : bool := between 48 57 c.
Definition AZ (c : ascii) : bool := between 65 90 c.
Definition az (c : ascii) : bool := between 97 122 c.

(** The class [\w]: alphanumeric characters and the underscore. *)
Definition word (c : ascii) : bool :=
  digit c || AZ c || eqc 95 c || az c
  || eqc 170 c || between 178 179 c || eqc 181 c || between 185 186 c
  || between 188 190 c || between 192 214 c || between 216 246 c
  || between 248 255 c.

(** The Unicode properties Uppercase and Lowercase. *)
Definition isupper (c : ascii) : bool :=
  AZ c || between 192 214 c || between 216 222 c.
Definition islower (c : ascii) : bool :=
  az c || eqc 170 c || eqc 181 c || eqc 186 c
  || between 223 246 c || between 248 255 c.

(** [str.lower] of one character: the upper-case letters move by 32. *)
Definition lower (c : ascii) : ascii :=
  if isupper c then ascii_of_N (code c + 32) else c.

(** The characters kept by [[^\w\s.,;:!?()-]] are those outside the
    bracket: word characters, whitespace and the listed punctuation. *)
Definition punct (c : ascii) : bool :=
  eqc 46 c || eqc 44 c || eqc 59 c || eqc 58 c || eqc 33 c || eqc 63 c
  || eqc 40 c || eqc 41 c || eqc 45 c.

Definition newline : ascii := ascii_of_N 10.
Definition space : ascii := ascii_of_N 32.

End Char.

Module Str.

(** [str.lower()] *)
Definition lower (s : str) : str := map Char.lower s.

(** [str.isupper()]: no lower-case character and at least one upper-case
    one. *)
Definition isupper (s : str) : bool :=
  forallb (λ c, negb (Char.islower c)) s && existsb Char.isupper s.

(** [str.lstrip()], [str.rstrip()] and [str.strip()] *)
Fixpoint lstrip (s : str) : str :=
  match s with
  | c :: s' => if Char.isspace c then lstrip s' else s
  | [] => []
  end.
Definition rstrip (s : str) : str := rev (lstrip (rev s)).
Definition strip (s : str) : str := rstrip (lstrip s).

(** [s.split(sep)] for a separator of one character *)
Fixpoint split (sep : ascii) (s : str) : list str :=
  match s with
  | [] => [[]]
  | c :: s' =>
      if bool_decide (c = sep) then [] :: split sep s'
      else match split sep s' with
           | l :: ls => (c :: l) :: ls
           | [] => [[c]]
           end
  end.

(** [sep.join(parts)] *)
Fixpoint join (sep : str) (parts : list str) : str :=
  match parts with
  | [] => []
  | [p] => p
  | p :: ps => p ++ sep ++ join sep ps
  end.

(** [s.startswith(prefix)] and [sub in s] *)
Fixpoint startswith (prefix s : str) : bool :=
  match prefix, s with
  | [], _ => true
  | _ :: _, [] => false
  | c :: prefix', d :: s' => bool_decide (c = d) && startswith prefix' s'
  end.

Fixpoint contains (sub s : str) : bool :=
  startswith sub s
  || match s with
     | [] => false
     | _ :: s' => contains sub s'
     end.

(** [s.replace(old, new)]: the occurrences of [old] are replaced from left
    to right and do not overlap; [skip] counts the characters of a replaced
    occurrence that are still to be passed over. An empty [old] matches
    before every character and at the end. *)
Fixpoint replace_from (skip : nat) (old new s : str) : str :=
  match s with
  | [] => []
  | c :: s' =>
      match skip with
      | S k => replace_from k old new s'
      | O =>
          if startswith old s then
            new ++ replace_from (length old - 1) old new s'
          else c :: replace_from 0 old new s'
      end
  end.

Definition replace (old new s : str) : str :=
  match old with
  | [] => new ++ flat_map (λ c, c :: new) s
  | _ :: _ => replace_from 0 old new s
  end.

End Str.

(** ** Regular expressions of [re]

  The patterns of the source use character classes, concatenation,
  [+], [{0,3}] and the anchors [^] and [$]. A pattern is a term of
  [regex]; [matches] is its language. [re.match] succeeds when some
  prefix of the subject is in the language. *)

Module Re.

Inductive regex : Type :=
| Void
| Eps
| Class (cls : ascii → bool)
| Cat (r1 r2 : regex)
| Alt (r1 r2 : regex)
| Star (r : regex).

Definition Plus (r : regex) : regex := Cat r (Star r).
Definition Opt (r : regex) : regex := Alt Eps r.
Definition Lit (n : N) : regex := Class (Char.eqc n).

(** [r{0,n}] *)
Fixpoint Upto (n : nat) (r : regex) : regex :=
  match n with
  | O => Eps
  | S n' => Opt (Cat r (Upto n' r))
  end.

(** [$] at the end of a pattern: the end of the subject, or just before
    a newline that ends the subject. *)
Definition Dollar : regex := Opt (Lit 10).

Inductive matches : regex → str → Prop :=
| m_eps : matches Eps []
| m_class cls c : cls c = true → matches (Class cls) [c]
| m_cat r1 r2 s1 s2 :
    matches r1 s1 → matches r2 s2 → matches (Cat r1 r2) (s1 ++ s2)
| m_alt_l r1 r2 s : matches r1 s → matches (Alt r1 r2) s
| m_alt_r r1 r2 s : matches r2 s → matches (Alt r1 r2) s
| m_star_nil r : matches (Star r) []
| m_star_app r s1 s2 :
    matches r s1 → matches (Star r) s2 → matches (Star r) (s1 ++ s2).

Fixpoint nullable (r : regex) : bool :=
  match r with
  | Void => false
  | Eps => true
  | Class _ => false
  | Cat r1 r2 => nullable r1 && nullable r2
  | Alt r1 r2 => nullable r1 || nullable r2
  | Star _ => true
  end.

(** Smart constructors keep the derivatives small. *)
Definition cat (r1 r2 : regex) : regex :=
  match r1, r2 with
  | Void, _ => Void
  | _, Void => Void
  | Eps, _ => r2
  | _, _ => Cat r1 r2
  end.

Definition alt (r1 r2 : regex) : regex :=
  match r1, r2 with
  | Void, _ => r2
  | _, Void => r1
  | _, _ => Alt r1 r2
  end.

Fixpoint deriv (c : ascii) (r : regex) : regex :=
  match r with
  | Void => Void
  | Eps => Void
  | Class cls => if cls c then Eps else Void
  | Cat r1 r2 =>
      if nullable r1 then alt (cat (deriv c r1) r2) (deriv c r2)
      else cat (deriv c r1) r2
  | Alt r1 r2 => alt (deriv c r1) (deriv c r2)
  | Star r1 => cat (deriv c r1) (Star r1)
  end.

(** The whole subject is in the language. *)
Fixpoint fullmatch (r : regex) (s : str) : bool :=
  match s with
  | [] => nullable r
  | c :: s' => fullmatch (deriv c r) s'
  end.

(** [re.match(r, s)] for a pattern [^r]: some prefix of [s] is in the
    language. *)
Fixpoint search_prefix (r : regex) (s : str) : bool :=
  nullable r ||
  match s with
  | [] => false
  | c :: s' => search_prefix (deriv c r) s'
  end.

End Re.

(** ** Exceptions *)

Inductive exn : Type := Exception (msg : string).

Inductive result (A : Type) : Type :=
| Ok (a : A)
| Raise (e : exn).
Arguments Ok {A} a.
Arguments Raise {A} e.

#[global] Instance result_ret : MRet result := λ A a, Ok a.
#[global] Instance result_bind : MBind result :=
  λ A B f m, match m with Ok a => f a | Raise e => Raise e end.

(** ** NumPy arrays and the chart heuristic *)

(** [np.array(image)] of a Pillow image: a two-dimensional array
    (one value per pixel) or a three-dimensional [uint8] array whose last
    axis has [depth] entries per pixel ([img_array.shape[2]]). *)
Inductive ndarray : Type :=
| Array2 (a : list (list Z))
| Array3 (depth : nat) (a : list (list (list Z))).

Module Np.

(** Subtraction of [uint8] values wraps around. *)
Definition u8_sub (x y : Z) : Z := (x - y) mod 256.

(** [np.diff] along the last axis of one pixel pair: [q - p]. *)
Definition diff_pixel (p q : list Z) : list Z :=
  zip_with (λ a b, u8_sub b a) p q.

(** [np.diff(a, axis=0)]: [out[i] = a[i+1] - a[i]] on rows. *)
Definition diff_axis0 (a : list (list (list Z))) : list (list (list Z)) :=
  zip_with (zip_with diff_pixel) a (tail a).

(** [np.diff(a, axis=1)]: [out[i][j] = a[i][j+1] - a[i][j]]. *)
Definition diff_axis1 (a : list (list (list Z))) : list (list (list Z)) :=
  map (λ row, zip_with diff_pixel row (tail row)) a.

(** [np.abs] of an unsigned array returns its values. *)
Definition abs (a : list (list (list Z))) : list (list (list Z)) := a.

Definition sum_list (l : list Z) : Z := foldr Z.add 0 l.

(** [np.sum] of a [uint8] array accumulates in [uint64]. *)
Definition sum (a : list (list (list Z))) : Z :=
  sum_list (map (λ row, sum_list (map sum_list row)) a) mod 2 ^ 64.

(** [len(np.unique(a.reshape(-1, depth), axis=0))]: the number of distinct
    pixels. *)
Definition unique_count (a : list (list (list Z))) : nat :=
  length (remove_dups (concat a)).

(** [a[:, :, :3]] *)
Definition first3 (a : list (list (list Z))) : list (list (list Z)) :=
  map (map (take 3)) a.

(** Conversion of a [uint64] to [float64], to the nearest float. *)
Definition to_float (z : Z) : float :=
  SF2Prim (binary_normalize prec emax z 0 false).

End Np.

Inductive chart_kind : Type := bar_chart | line_chart | other_chart.

#[local] Set Warnings "-inexact-float".

Definition edge_ratio (img_array : list (list (list Z))) : float :=
  let edges_h := Np.sum (Np.abs (Np.diff_axis0 img_array)) in
  let edges_v := Np.sum (Np.abs (Np.diff_axis1 img_array)) in
  (Np.to_float edges_h / (Np.to_float edges_v + 1e-10))%float.

(** Lines 95-125 of [detect_charts]: the heuristic on a three-dimensional
    array. *)
Definition chart_heuristic (img_array : list (list (list Z)))
  : bool * option chart_kind :=
  let unique_colors := Np.unique_count img_array in
  let edge_ratio := edge_ratio img_array in
  let is_chart :=
    bool_decide (unique_colors < 50)%nat
    && (PrimFloat.ltb 0.5 edge_ratio && PrimFloat.ltb edge_ratio 2.0) in
  let chart_type :=
    if is_chart then
      if PrimFloat.ltb 1.2 edge_ratio then Some bar_chart
      else if PrimFloat.ltb edge_ratio 0.8 then Some line_chart
      else Some other_chart
    else None in
  (is_chart, chart_type).

(** [detect_charts] once [np.array(image)] has been computed. *)
Definition detect_charts_array (img_array : ndarray)
  : bool * option chart_kind :=
  match img_array with
  | Array2 _ => (false, None)
  | Array3 depth a =>
      if bool_decide (depth = 1%nat) then (false, None)
      else
        let a := if bool_decide (depth = 4%nat) then Np.first3 a else a in
        chart_heuristic a
  end.

(** ** The external libraries *)

(** A Pillow image as [Image.open] returns it: the header fields and the
    file it reads its pixels from. *)
Record PILImage : Type := {
  im_mode : str;
  im_width : Z;
  im_height : Z;
  im_fp : bytes;
}.

(** A spaCy span ([ent.text], [ent.label_]; [str(s)] of a sentence is its
    text) and a processed document. *)
Record Span : Type := { span_text : str; label_ : str }.
Record Doc : Type := { ents : list Span; sents : list Span }.

(** PyMuPDF: a rectangle, the dictionary of [doc.extract_image(xref)], an
    entry of [page.get_images(full=True)] with what the document returns
    for it, a page and an opened document. *)
Record Rect : Type := {
  x0 : float; y0 : float; rect_width : float; rect_height : float;
}.
Record BaseImage : Type := { bi_image : bytes; bi_ext : str }.
Record EmbeddedImage : Type := {
  extract_image : result BaseImage;
  get_image_bbox : result Rect;
}.
Record Page : Type := { get_text : str; get_images : list EmbeddedImage }.
Definition Document := list Page.

Class Externals : Type := {
  (** [fitz.open] on a file holding these bytes *)
  fitz_open : bytes → result Document;
  (** [Image.open(io.BytesIO(b))] *)
  Image_open : bytes → result PILImage;
  (** [image.convert('RGB')] *)
  convert_RGB : PILImage → result PILImage;
  (** [image.save(buffered, format="PNG"); buffered.getvalue()] *)
  save_PNG : PILImage → result bytes;
  (** [pytesseract.image_to_string(image)] *)
  image_to_string : PILImage → result str;
  (** [np.array(image)] *)
  np_array : PILImage → result ndarray;
  (** [base64.b64encode(b).decode()] and [base64.b64decode(s)] *)
  b64encode : bytes → str;
  b64decode : str → result bytes;
  (** the spaCy pipeline [nlp] *)
  nlp : str → Doc;
  (** [werkzeug.utils.secure_filename] *)
  secure_filename : str → str;
  (** [file.save(file_path)] of the uploaded bytes *)
  file_save : str → bytes → result unit;
}.

(** ** Data of the analysis result *)

(** The dictionary built per image by [extract_images_from_pdf]; the keys
    ["is_chart"] and ["chart_type"] are absent until [analyze_pdf] writes
    them. *)
Record Position : Type := {
  pos_x : float; pos_y : float; pos_width : float; pos_height : float;
}.
Record ImageData : Type := {
  page : nat;
  position : Position;
  base64 : str;
  size : Z * Z;
  format : str;
  ocr_text : str;
  is_chart : option bool;
  chart_type : option chart_kind;
}.

Definition set_is_chart (v : bool) (d : ImageData) : ImageData :=
  {| page := page d; position := position d; base64 := base64 d;
     size := size d; format := format d; ocr_text := ocr_text d;
     is_chart := Some v; chart_type := chart_type d |}.

Definition set_chart_type (v : chart_kind) (d : ImageData) : ImageData :=
  {| page := page d; position := position d; base64 := base64 d;
     size := size d; format := format d; ocr_text := ocr_text d;
     is_chart := is_chart d; chart_type := Some v |}.

Record Heading : Type := { heading : str; heading_page : nat }.

Record Structure : Type := {
  total_pages : nat;
  sections : list Heading;
  estimated_word_count : nat;
}.

Record Entity : Type := { text : str; label : str }.

Record AnalysisResult : Type := {
  filename : str;
  summary : str;
  structure : Structure;
  entities : list Entity;
  images : list ImageData;
  page_count : nat;
  text_by_page : list str;
}.

(** The uploaded file of the request ([request.files["file"]]) and the
    responses of the view: [jsonify({"error": ...}), 400], the analysis
    payload, or an exception that leaves the view. *)
Record FileStorage : Type := { fs_filename : str; fs_stream : bytes }.

Inductive Response : Type :=
| BadRequest (error : str)
| Analysis (r : AnalysisResult)
| Unhandled (e : exn).

(** ** Text cleaning *)

(** [re.sub(r'\s+', ' ', text)]: every maximal run of whitespace becomes one
    space; [in_run] tells that the previous character was whitespace. *)
Fixpoint sub_whitespace (in_run : bool) (text : str) : str :=
  match text with
  | [] => []
  | c :: rest =>
      if Char.isspace c then
        if in_run then sub_whitespace true rest
        else Char.space :: sub_whitespace true rest
      else c :: sub_whitespace false rest
  end.

(** [re.sub(r'[^\w\s.,;:!?()-]', '', text)] keeps the characters of the
    bracket. *)
Definition allowed (c : ascii) : bool :=
  Char.word c || Char.isspace c || Char.punct c.

Definition clean_text (text : str) : str :=
  let text := sub_whitespace false text in
  let text := List.filter allowed text in
  Str.strip text.

(** ** Patterns of the source *)

(** [r'^\d+$'] *)
Definition re_number : Re.regex :=
  Re.Cat (Re.Plus (Re.Class Char.digit)) Re.Dollar.

(** [r'^[0-9]+\.\s+[A-Z]'] *)
Definition re_enumerated : Re.regex :=
  Re.Cat (Re.Plus (Re.Class Char.digit))
    (Re.Cat (Re.Lit 46)
       (Re.Cat (Re.Plus (Re.Class Char.isspace)) (Re.Class Char.AZ))).

(** [r'^[A-Z][a-z]+(\s+[A-Z][a-z]+){0,3}$'] *)
Definition re_capitalized : Re.regex :=
  Re.Cat (Re.Class Char.AZ) (Re.Plus (Re.Class Char.az)).
Definition re_title : Re.regex :=
  Re.Cat re_capitalized
    (Re.Cat
       (Re.Upto 3 (Re.Cat (Re.Plus (Re.Class Char.isspace)) re_capitalized))
       Re.Dollar).

(** [re.findall(r'\b\w+\b', text)] returns the maximal runs of word
    characters; this is their number. *)
Fixpoint count_words (in_word : bool) (text : str) : nat :=
  match text with
  | [] => O
  | c :: rest =>
      if Char.word c then
        ((if in_word then 0 else 1) + count_words true rest)%nat
      else count_words false rest
  end.

(** ** Structure analysis *)

(** The test of lines 213-216; [and] binds tighter than [or]. *)
Definition heading_test (line : str) : bool :=
  ((bool_decide (0 < length line)%nat && bool_decide (length line < 100)%nat)
   && Str.isupper line)
  || Re.search_prefix re_enumerated line
  || Re.fullmatch re_title line.

(** One iteration of the loop over the lines of a page: the sections
    appended so far and [current_section]. *)
Definition line_step (page_num : nat)
    (st : list Heading * option Heading) (line : str)
  : list Heading * option Heading :=
  let line := Str.strip line in
  if heading_test line then
    let sections :=
      match st.2 with
      | Some current_section => st.1 ++ [current_section]
      | None => st.1
      end in
    (sections, Some {| heading := line; heading_page := page_num + 1 |})
  else st.

Record StructureState : Type := {
  st_sections : list Heading;
  st_word_count : nat;
  st_combined_text : str;
  st_current_section : option Heading;
}.

(** One iteration of the loop over [enumerate(text_by_page)]. *)
Definition page_step (st : StructureState) (page_num : nat) (page_text : str)
  : StructureState :=
  let combined_text := st_combined_text st ++ page_text in
  let words := count_words false page_text in
  let lines := Str.split Char.newline page_text in
  let '(sections, current_section) :=
    fold_left (line_step page_num) lines
      (st_sections st, st_current_section st) in
  {| st_sections := sections;
     st_word_count := (st_word_count st + words)%nat;
     st_combined_text := combined_text;
     st_current_section := current_section |}.

Fixpoint pages_loop (st : StructureState) (page_num : nat)
    (text_by_page : list str) : StructureState :=
  match text_by_page with
  | [] => st
  | page_text :: rest =>
      pages_loop (page_step st page_num page_text) (S page_num) rest
  end.

Definition analyze_document_structure (text_by_page : list str)
  : Structure * str :=
  let st :=
    pages_loop
      {| st_sections := []; st_word_count := O; st_combined_text := [];
         st_current_section := None |}
      O text_by_page in
  let sections :=
    match st_current_section st with
    | Some current_section => st_sections st ++ [current_section]
    | None => st_sections st
    end in
  ({| total_pages := length text_by_page;
      sections := sections;
      estimated_word_count := st_word_count st |},
   st_combined_text st).

(** ** The pipeline over the external libraries *)

Section Pipeline.
Context {ext : Externals}.

Definition extract_text_from_pdf (file : bytes) : result (list str) :=
  doc ← fitz_open file;
  mret (map get_text doc).

(** The body of the [try] of lines 44-71: every call that can raise, in the
    order of the source; the dictionary is built last and its ["ocr_text"]
    entry is the last expression evaluated. *)
Definition load_image (img : EmbeddedImage) : result (BaseImage * PILImage) :=
  base_image ← extract_image img;
  image ← Image_open (bi_image base_image);
  image ← (if bool_decide (im_mode image = py "CMYK")
           then convert_RGB image else mret image);
  mret (base_image, image).

Definition process_image (page_index : nat) (img : EmbeddedImage)
  : result ImageData :=
  '(base_image, image) ← load_image img;
  png ← save_PNG image;
  let img_str := b64encode png in
  rect ← get_image_bbox img;
  ocr ← image_to_string image;
  mret {| page := page_index + 1;
          position := {| pos_x := x0 rect; pos_y := y0 rect;
                         pos_width := rect_width rect;
                         pos_height := rect_height rect |};
          base64 := img_str;
          size := (im_width image, im_height image);
          format := bi_ext base_image;
          ocr_text := ocr;
          is_chart := None;
          chart_type := None |}.

(** [try: ... image_data.append(...) except Exception: print(...)] *)
Definition image_step (page_index : nat) (image_data : list ImageData)
    (img : EmbeddedImage) : list ImageData :=
  match process_image page_index img with
  | Ok d => image_data ++ [d]
  | Raise _ => image_data
  end.

Fixpoint images_loop (page_index : nat) (doc : list Page)
    (image_data : list ImageData) : list ImageData :=
  match doc with
  | [] => image_data
  | page :: rest =>
      images_loop (S page_index) rest
        (fold_left (image_step page_index) (get_images page) image_data)
  end.

Definition extract_images_from_pdf (file : bytes) : result (list ImageData) :=
  doc ← fitz_open file;
  mret (images_loop O doc []).

Definition detect_charts (image : PILImage) : bool * option chart_kind :=
  match np_array image with
  | Ok img_array => detect_charts_array img_array
  | Raise _ => (false, None)
  end.

(** The string passed to [nlp] at line 142. *)
Definition ner_input (text : str) : str := clean_text (take 100000 text).

Definition entity_key (t l : str) : str * str := (Str.lower t, l).

(** One iteration of the loop over [doc.ents]: the list [entities] and the
    set [seen_entities]. *)
Definition entity_step (st : list Entity * gset (str * str)) (ent : Span)
  : list Entity * gset (str * str) :=
  if bool_decide (length (Str.strip (span_text ent)) ≤ 1)%nat then st
  else if Re.fullmatch re_number (Str.strip (span_text ent)) then st
  else
    let entity_key := entity_key (span_text ent) (label_ ent) in
    if bool_decide (entity_key ∈ st.2) then st
    else (st.1 ++ [{| text := span_text ent; label := label_ ent |}],
          {[ entity_key ]} ∪ st.2).

Definition extract_entities (text : str) : list Entity :=
  let doc := nlp (ner_input text) in
  (fold_left entity_step (ents doc) ([], ∅)).1.

(** The sentence summary of lines 176-182. *)
Definition sentence_summary (clean : str) : str :=
  let doc := nlp (take 10000 clean) in
  let summary_sentences := take 5 (sents doc) in
  Str.join (py " ") (map span_text summary_sentences).

Definition summarize_text (text : str) : str :=
  let clean := clean_text text in
  let summary := sentence_summary clean in
  if bool_decide (length summary < 100)%nat
     && bool_decide (100 < length clean)%nat
  then take 300 clean ++ py "..."
  else summary.

(** One iteration of the loop of lines 272-286; every dictionary of
    [extract_images_from_pdf] has the key ["base64"]. *)
Definition classify_image (img_data : ImageData) : ImageData :=
  let attempt :=
    img_bytes ← b64decode (base64 img_data);
    img ← Image_open img_bytes;
    mret (detect_charts img) in
  match attempt with
  | Ok (is_chart, chart_type) =>
      let img_data := set_is_chart is_chart img_data in
      match chart_type with
      | Some k => set_chart_type k img_data
      | None => img_data
      end
  | Raise _ => set_is_chart false img_data
  end.

(** The view: [None] is a request without the part ["file"]; the functions
    that take [file_path] read the bytes saved there. *)
Definition analyze_pdf (request_file : option FileStorage) : Response :=
  match request_file with
  | None => BadRequest (py "No file part")
  | Some file =>
      if bool_decide (fs_filename file = []) then
        BadRequest (py "No selected file")
      else
        let filename := secure_filename (fs_filename file) in
        let file_path := py "./uploads/" ++ filename in
        match file_save file_path (fs_stream file)
              ≫= λ _, extract_text_from_pdf (fs_stream file) with
        | Raise e => Unhandled e
        | Ok text_by_page =>
            let '(structure, combined_text) :=
              analyze_document_structure text_by_page in
            match extract_images_from_pdf (fs_stream file) with
            | Raise e => Unhandled e
            | Ok images =>
                let images := map classify_image images in
                let entities := extract_entities combined_text in
                let summary := summarize_text combined_text in
                Analysis
                  {| filename := filename;
                     summary := summary;
                     structure := structure;
                     entities := entities;
                     images := images;
                     page_count := length text_by_page;
                     text_by_page := text_by_page |}
            end
        end
  end.

(** *** Vocabulary of the properties *)

(** What the loop of [extract_images_from_pdf] appends for one embedded
    image of page [x.1]: its dictionary, or nothing when the body raises. *)
Definition record_of (x : nat * EmbeddedImage) : option ImageData :=
  match process_image x.1 x.2 with
  | Ok d => Some d
  | Raise _ => None
  end.

Definition records (l : list (nat * EmbeddedImage)) : list ImageData :=
  omap record_of l.

End Pipeline.

(** The embedded images of a document in source order (page order, then the
    order of [page.get_images]), each with the index of its page. *)
Fixpoint enumerate_images (page_index : nat) (doc : list Page)
  : list (nat * EmbeddedImage) :=
  match doc with
  | [] => []
  | page :: rest =>
      map (pair page_index) (get_images page)
      ++ enumerate_images (S page_index) rest
  end.

(** The heading rule as the specification words it: the bound of 100
    characters holds for all three shapes of line. *)
Definition heading_rule (line : str) : bool :=
  bool_decide (length line < 100)%nat
  && (Str.isupper line
      || Re.search_prefix re_enumerated line
      || Re.fullmatch re_title line).

(** The chart rule as the specification words it: [edge_h] and [edge_v]
    are the sums of the absolute differences of the values of vertically
    and of horizontally adjacent pixels, and the image is a chart when it
    has fewer than 50 distinct colours and the ratio of the two sums lies
    strictly between 0.5 and 2.0. *)
Definition abs_diff_pixel (p q : list Z) : list Z :=
  zip_with (λ a b, Z.abs (b - a)) p q.

Definition sum_values (a : list (list (list Z))) : Z :=
  Np.sum_list (map (λ row, Np.sum_list (map Np.sum_list row)) a).

Definition edge_h (a : list (list (list Z))) : Z :=
  sum_values (zip_with (zip_with abs_diff_pixel) a (tail a)).

Definition edge_v (a : list (list (list Z))) : Z :=
  sum_values (map (λ row, zip_with abs_diff_pixel row (tail row)) a).

Definition chart_rule (a : list (list (list Z))) : bool * option chart_kind :=
  let distinct_colors := length (remove_dups (concat a)) in
  let edge_ratio :=
    (Np.to_float (edge_h a) / (Np.to_float (edge_v a) + 1e-10))%float in
  if bool_decide (distinct_colors < 50)%nat
     && (PrimFloat.ltb 0.5 edge_ratio && PrimFloat.ltb edge_ratio 2.0)
  then
    (true,
     Some (if PrimFloat.ltb 1.2 edge_ratio then bar_chart
           else if PrimFloat.ltb edge_ratio 0.8 then line_chart
           else other_chart))
  else (false, None).

(** The recognizer input as the specification words it: the whole text is
    cleaned first and the cleaned text is truncated afterwards. *)
Definition cleaned_then_truncated (text : str) : str :=
  take 100000 (clean_text text).



(** ** Concrete inputs

    A small instance of the external libraries, used to run the pipeline on
    concrete documents: the document is given, an image file is its list of
    bytes, an empty file cannot be opened, recognition fails on a file that
    starts with a zero byte, and the first byte selects the pixel array. *)

Module Sample.

Definition la_chart : ndarray :=
  Array3 2 [ [ [0; 255]; [1; 255] ]; [ [1; 255]; [1; 255] ] ].

Definition rgb_bar : ndarray :=
  Array3 3 [ [ [0; 0; 0]; [2; 0; 0] ]; [ [3; 0; 0]; [5; 0; 0] ] ].

Definition rgba_line : ndarray :=
  Array3 4 [ [ [0; 0; 0; 1]; [3; 0; 0; 2] ]; [ [2; 0; 0; 3]; [5; 0; 0; 4] ] ].

Definition rgb_flat : ndarray := Array3 3 [ [ [7; 7; 7] ] ].

(** Three colours; the red value falls by one from the first row to the
    second and rises by one from the first column to the second. *)
Definition rgb_falling : ndarray :=
  Array3 3 [ [ [1; 0; 0]; [2; 0; 0] ]; [ [0; 0; 0]; [1; 0; 0] ] ].

Definition gray : ndarray := Array2 [ [0; 1]; [2; 3] ].

Definition pixels (b : bytes) : result ndarray :=
  match b with
  | Byte.x01 :: _ => Ok la_chart
  | Byte.x02 :: _ => Ok gray
  | Byte.x03 :: _ => Raise (Exception "image file is truncated")
  | Byte.x04 :: _ => Ok rgb_bar
  | Byte.x05 :: _ => Ok rgba_line
  | Byte.x08 :: _ => Ok rgb_falling
  | _ => Ok rgb_flat
  end.

Definition words_of (t : str) : list Span :=
  map (λ w, {| span_text := w; label_ := py "WORD" |}) (Str.split Char.space t).

Definition sentences_of (t : str) : list Span :=
  map (λ w, {| span_text := w; label_ := [] |}) (Str.split (ascii_of_N 46) t).

Definition externals (doc : result Document) : Externals := {|
  fitz_open := λ _, doc;
  Image_open := λ b,
    match b with
    | [] => Raise (Exception "cannot identify image file")
    | _ => Ok {| im_mode := py "RGB"; im_width := 1; im_height := 1;
                 im_fp := b |}
    end;
  convert_RGB := λ im, Ok im;
  save_PNG := λ im, Ok (im_fp im);
  image_to_string := λ im,
    match im_fp im with
    | Byte.x00 :: _ => Raise (Exception "tesseract failed")
    | _ => Ok (py "txt")
    end;
  np_array := λ im, pixels (im_fp im);
  b64encode := map ascii_of_byte;
  b64decode := λ s, Ok (map byte_of_ascii s);
  nlp := λ t, {| ents := words_of t; sents := sentences_of t |};
  secure_filename := λ n, n;
  file_save := λ _ _, Ok ();
|}.

Definition rect : Rect :=
  {| x0 := 0%float; y0 := 0%float; rect_width := 1%float;
     rect_height := 1%float |}.

(** An embedded image whose file is [b]. *)
Definition embedded (b : bytes) : EmbeddedImage :=
  {| extract_image := Ok {| bi_image := b; bi_ext := py "png" |};
     get_image_bbox := Ok rect |}.

(** An embedded image that the document cannot extract. *)
Definition corrupt : EmbeddedImage :=
  {| extract_image := Raise (Exception "bad xref");
     get_image_bbox := Ok rect |}.

(** A line of 104 characters with an enumerated prefix. *)
Definition long_enumerated : str := py "1. A" ++ replicate 100 (ascii_of_N 97).

(** A text of 100,001 characters: 99,999 spaces, then [ab]. *)
Definition padded : str := replicate 99999 Char.space ++ py "ab".

(** One page with three images; recognition fails on the second one. *)
Definition doc_ocr_failure : Document :=
  [ {| get_text := py "Report";
       get_images := [embedded [Byte.x04]; embedded [Byte.x00];
                      embedded [Byte.x01]] |} ].

(** One page with a single image, on which recognition fails. *)
Definition doc_only_ocr_failure : Document :=
  [ {| get_text := []; get_images := [embedded [Byte.x00]] |} ].

(** One page with two images: the first is corrupt, recognition fails on
    the second. *)
Definition doc_corrupt_and_unreadable : Document :=
  [ {| get_text := []; get_images := [corrupt; embedded [Byte.x00]] |} ].

(** Two pages with three images; the second image of page one is corrupt. *)
Definition doc_corrupt : Document :=
  [ {| get_text := py "Annual";
       get_images := [embedded [Byte.x04]; corrupt] |};
    {| get_text := py " report"; get_images := [embedded [Byte.x02]] |} ].

(** Two pages whose texts meet inside a word, six images: a bar chart, a
    corrupt image, one on which recognition fails, a two-channel image, a
    grey image and one whose pixels cannot be read. *)
Definition doc_mixed : Document :=
  [ {| get_text := py "Report";
       get_images := [embedded [Byte.x04]; corrupt; embedded [Byte.x00];
                      embedded [Byte.x01]] |};
    {| get_text := py "s here";
       get_images := [embedded [Byte.x02]; embedded [Byte.x03]] |} ].

(** Five short sentences followed by 120 letters. *)
Definition short_sentences : str :=
  py "a.b.c.d.e." ++ replicate 120 (ascii_of_N 120).

Definition upload (name : string) : option FileStorage :=
  Some {| fs_filename := py name; fs_stream := [] |}.

End Sample.

(** ** Vocabulary of the further properties *)

(** The headings of one page: its stripped lines that pass the heading
    test, in order, each with the page number of the page. *)
Definition page_headings (page_num : nat) (page_text : str) : list Heading :=
  map (λ line, {| heading := line; heading_page := page_num + 1 |})
    (List.filter heading_test
       (map Str.strip (Str.split Char.newline page_text))).

Fixpoint document_headings (page_num : nat) (text_by_page : list str)
  : list Heading :=
  match text_by_page with
  | [] => []
  | page_text :: rest =>
      page_headings page_num page_text ++ document_headings (S page_num) rest
  end.

(** No two adjacent characters of the text are both whitespace. *)
Fixpoint single_spaced (s : str) : bool :=
  match s with
  | c :: rest =>
      match rest with
      | d :: _ => negb (Char.isspace c && Char.isspace d)
      | [] => true
      end && single_spaced rest
  | [] => true
  end.

(** The sections of the loop state in reading order: the appended ones, then
    the open one. *)
Definition open_sections (st : list Heading * option Heading) : list Heading :=
  st.1 ++ option_list st.2.

(** The sum of the word counts of the pages. *)
Definition page_word_total (text_by_page : list str) : nat :=
  foldr (λ page_text n, (count_words false page_text + n)%nat) O text_by_page.

(** A second instance of the external libraries: as [Sample.externals], but
    an image file that starts with byte 6 opens in mode CMYK and
    [convert_RGB] returns an image of mode RGB. *)
Definition pillow_like (doc : result Document) : Externals := {|
  fitz_open := @fitz_open (Sample.externals doc);
  Image_open := λ b,
    match b with
    | [] => Raise (Exception "cannot identify image file")
    | Byte.x06 :: _ =>
        Ok {| im_mode := py "CMYK"; im_width := 1; im_height := 1; im_fp := b |}
    | _ => Ok {| im_mode := py "RGB"; im_width := 1; im_height := 1;
                 im_fp := b |}
    end;
  convert_RGB := λ im,
    Ok {| im_mode := py "RGB"; im_width := im_width im;
          im_height := im_height im; im_fp := im_fp im |};
  save_PNG := @save_PNG (Sample.externals doc);
  image_to_string := @image_to_string (Sample.externals doc);
  np_array := @np_array (Sample.externals doc);
  b64encode := @b64encode (Sample.externals doc);
  b64decode := @b64decode (Sample.externals doc);
  nlp := @nlp (Sample.externals doc);
  secure_filename := @secure_filename (Sample.externals doc);
  file_save := @file_save (Sample.externals doc);
|}.

(** The path the view saves an upload to. *)
Definition upload_path `{Externals} (file : FileStorage) : str :=
  py "./uploads/" ++ secure_filename (fs_filename file).

(** The fields that image extraction writes. *)
Definition same_extracted_fields (d0 d : ImageData) : Prop :=
  page d = page d0 ∧ position d = position d0 ∧ base64 d = base64 d0
  ∧ size d = size d0 ∧ format d = format d0 ∧ ocr_text d = ocr_text d0.

(** ** The front end

    [frontend.py] shows the payload of the view. The payload [data] is the
    analysis result; the computations of the script that choose what is
    shown are embedded, the drawing calls of Streamlit are not. *)

Module Frontend.

(** [img.get('is_chart', False)] *)
Definition get_is_chart (img : ImageData) : bool :=
  default false (is_chart img).

(** Line 81: [sum(1 for img in data['images'] if img.get('is_chart', False))] *)
Definition chart_count (images : list ImageData) : nat :=
  fold_left (λ total img, if get_is_chart img then (total + 1)%nat else total)
    images O.

(** Lines 126-127 *)
Definition charts (images : list ImageData) : list ImageData :=
  List.filter get_is_chart images.
Definition regular_images (images : list ImageData) : list ImageData :=
  List.filter (λ img, negb (get_is_chart img)) images.

(** The strings that [detect_charts] returns for the subtypes, and
    [img.get('chart_type', 'Unknown')] of line 139. *)
Definition chart_type_name (k : chart_kind) : str :=
  match k with
  | bar_chart => py "bar_chart"
  | line_chart => py "line_chart"
  | other_chart => py "other_chart"
  end.
Definition get_chart_type (img : ImageData) : str :=
  match chart_type img with
  | Some k => chart_type_name k
  | None => py "Unknown"
  end.

(** Lines 104-119: what the Content tab shows for the selected page.
    [st.selectbox] returns [None] when [page_numbers] is empty; the page
    text goes to [st.text], and a copy with the search term between
    asterisks goes to [st.markdown] when a search term is given and occurs
    in the page. An index out of range would raise [IndexError]. *)
Inductive PageView : Type :=
| PageText (page_content : str)
| Markdown (highlighted_content : str)
| NotAvailable
| NoPage
| IndexError.

Definition page_numbers (data : AnalysisResult) : list nat :=
  seq 1 (page_count data).

(** [f"**{search_term}**"] *)
Definition bold (search_term : str) : str :=
  py "**" ++ search_term ++ py "**".

Definition show_page (search_term page_content : str) : PageView :=
  if bool_decide (search_term ≠ []) && Str.contains search_term page_content
  then Markdown (Str.replace search_term (bold search_term) page_content)
  else PageText page_content.

Definition page_view (data : AnalysisResult) (search_term : str)
  (selected_page : option nat) : PageView :=
  match selected_page with
  | None => NoPage
  | Some n =>
      if bool_decide (n ≠ 0%nat) && bool_decide (n ≤ page_count data)%nat then
        if bool_decide (n ≤ length (text_by_page data))%nat then
          match text_by_page data !! (n - 1)%nat with
          | Some page_content => show_page search_term page_content
          | None => IndexError
          end
        else NotAvailable
      else NoPage
  end.

(** Lines 170-175: the texts of the entities, by label. *)
Definition group_step (entity_categories : gmap str (list str)) (ent : Entity)
  : gmap str (list str) :=
  let category := label ent in
  let entity_categories :=
    match entity_categories !! category with
    | None => <[category := []]> entity_categories
    | Some _ => entity_categories
    end in
  alter (λ texts, texts ++ [text ent]) category entity_categories.

Definition entity_categories (entities : list Entity) : gmap str (list str) :=
  fold_left group_step entities ∅.

(** Line 178 *)
Definition category_order : list str :=
  [py "PERSON"; py "ORG"; py "GPE"; py "LOC"; py "DATE"; py "TIME";
   py "PRODUCT"].

(** The order of Python on strings: by code point, a proper prefix first. *)
Fixpoint str_leb (a b : str) : bool :=
  match a, b with
  | [], _ => true
  | _ :: _, [] => false
  | x :: a', y :: b' =>
      if (Char.code x <? Char.code y)%N then true
      else if (Char.code x =? Char.code y)%N then str_leb a' b'
      else false
  end.
Definition str_le (a b : str) : Prop := str_leb a b = true.
#[global] Instance str_le_dec : RelDecision str_le :=
  λ a b, decide (str_leb a b = true).

(** [sorted(set(texts))] *)
Definition sorted_set (texts : list str) : list str :=
  merge_sort str_le (remove_dups texts).

(** Lines 201-202: the categories of [category_order] that are shown. *)
Definition known_categories (entity_categories : gmap str (list str))
  : list str :=
  List.filter (λ category, bool_decide (is_Some (entity_categories !! category)))
    category_order.

(** Line 210: [sorted(entity_categories.keys())] without the known ones. *)
Definition other_categories (entity_categories : gmap str (list str))
  : list str :=
  List.filter (λ cat, negb (bool_decide (cat ∈ category_order)))
    (merge_sort str_le (elements (dom entity_categories))).

(** Lines 205 and 215: the entities shown for a category. *)
Definition shown_entities (entity_categories : gmap str (list str))
    (category : str) : list str :=
  sorted_set (default [] (entity_categories !! category)).

End Frontend.

(** * Properties *)

(** ** The model on small inputs *)

Example clean_text_example :
  clean_text (py "  Fig. 3:   sales #2024 (EUR) ") = py "Fig. 3: sales 2024 (EUR)".
Proof. reflexivity. Qed.

Example heading_test_examples :
  map heading_test
    [py "INTRODUCTION"; py "2. Methods"; py "Related Work"; py "2.Methods";
     py "Related work"; py "One Two Three Four Five"; py ""]
  = [true; true; true; false; false; false; false].
Proof. vm_compute. reflexivity. Qed.

Example analyze_document_structure_example :
  analyze_document_structure
    [py "OVERVIEW" ++ [Char.newline] ++ py "first words";
     py "1. Setup" ++ [Char.newline] ++ py "more words"]
  = ({| total_pages := 2;
        sections := [ {| heading := py "OVERVIEW"; heading_page := 1 |};
                      {| heading := py "1. Setup"; heading_page := 2 |} ];
        estimated_word_count := 7 |},
     py "OVERVIEW" ++ [Char.newline] ++ py "first words1. Setup"
     ++ [Char.newline] ++ py "more words").
Proof. vm_compute. reflexivity. Qed.

Example uint8_difference_wraps : Np.u8_sub 3 5 = 254.
Proof. reflexivity. Qed.

Example detect_charts_array_examples :
  map detect_charts_array
    [Sample.gray; Sample.rgb_flat; Sample.rgb_bar; Sample.rgba_line]
  = [(false, None); (false, None); (true, Some bar_chart);
     (true, Some line_chart)].
Proof. vm_compute. reflexivity. Qed.

(** ** The matcher decides the language of a pattern *)

Section RegexFacts.
Import Re.

Lemma matches_cat_smart r1 r2 s : matches (cat r1 r2) s ↔ matches (Cat r1 r2) s.
Proof.
  split.
  - destruct r1, r2; simpl; intros Hm; try exact Hm;
      try (inversion Hm; fail);
      change s with ([] ++ s); (constructor; [constructor | exact Hm]).
  - intros Hm. inversion Hm as [| |? ? s1 s2 H1 H2| | | |]; subst.
    destruct r1, r2; simpl; try (constructor; assumption);
      try (inversion H1; fail); try (inversion H2; fail);
      inversion H1; subst; simpl; assumption.
Qed.

Lemma matches_alt_smart r1 r2 s : matches (alt r1 r2) s ↔ matches (Alt r1 r2) s.
Proof.
  split.
  - destruct r1, r2; simpl; intros Hm; try exact Hm;
      try (inversion Hm; fail);
      solve [ apply m_alt_l; exact Hm | apply m_alt_r; exact Hm ].
  - intros Hm. inversion Hm; subst;
      destruct r1, r2; simpl; try assumption;
      try (match goal with H : matches Void _ |- _ => inversion H end);
      solve [ apply m_alt_l; assumption | apply m_alt_r; assumption ].
Qed.

Lemma nullable_matches r : nullable r = true ↔ matches r [].
Proof.
  induction r as [| |cls|r1 IH1 r2 IH2|r1 IH1 r2 IH2|r IH]; simpl.
  - split; [discriminate | inversion 1].
  - split; [constructor | reflexivity].
  - split; [discriminate | inversion 1].
  - rewrite andb_true_iff, IH1, IH2. split.
    + intros [H1 H2]. change (@nil ascii) with (@nil ascii ++ []).
      constructor; assumption.
    + intros Hm. inversion Hm as [| |? ? s1 s2 H1 H2 [E1 E2] E| | | |].
      apply app_eq_nil in E as [-> ->]. auto.
  - rewrite orb_true_iff, IH1, IH2. split.
    + intros [H1|H2]; [apply m_alt_l | apply m_alt_r]; assumption.
    + inversion 1; subst; auto.
  - split; [constructor | reflexivity].
Qed.

Lemma matches_star_cons r s :
  matches (Star r) s →
  s = [] ∨ ∃ c s1 s2, s = c :: s1 ++ s2 ∧ matches r (c :: s1) ∧ matches (Star r) s2.
Proof.
  remember (Star r) as r' eqn:E. intros Hm.
  induction Hm as [| | | | | |r0 s1 s2 H1 _ H2 IH2]; try discriminate.
  - now left.
  - injection E as ->. destruct s1 as [|c s1].
    + simpl. apply IH2. reflexivity.
    + right. exists c, s1, s2. auto.
Qed.

Lemma deriv_matches c r s : matches (deriv c r) s ↔ matches r (c :: s).
Proof.
  revert s.
  induction r as [| |cls|r1 IH1 r2 IH2|r1 IH1 r2 IH2|r IH]; intros s; simpl.
  - split; inversion 1.
  - split; inversion 1.
  - destruct (cls c) eqn:Hc; split; intros Hm.
    + inversion Hm; subst. constructor. exact Hc.
    + inversion Hm; subst. constructor.
    + inversion Hm.
    + inversion Hm; subst. congruence.
  - assert (Hcat : matches (cat (deriv c r1) r2) s ↔
                   ∃ s1 s2, s = s1 ++ s2 ∧ matches r1 (c :: s1) ∧ matches r2 s2).
    { rewrite matches_cat_smart. split.
      - inversion 1 as [| |? ? s1 s2 H1 H2| | | |]; subst.
        exists s1, s2. rewrite <- IH1. auto.
      - intros (s1 & s2 & -> & H1 & H2). constructor; [apply IH1|]; assumption. }
    assert (Hsplit : matches (Cat r1 r2) (c :: s) ↔
              (∃ s1 s2, s = s1 ++ s2 ∧ matches r1 (c :: s1) ∧ matches r2 s2)
              ∨ (matches r1 [] ∧ matches r2 (c :: s))).
    { split.
      - intros Hm. inversion Hm as [| |? ? s1 s2 H1 H2 [E1 E2] E| | | |].
        destruct s1 as [|c' s1]; simpl in E.
        + right. subst. auto.
        + injection E as Ec Es. subst c' s. left. eauto.
      - intros [(s1 & s2 & -> & H1 & H2)|[H1 H2]].
        + change (c :: s1 ++ s2) with ((c :: s1) ++ s2). constructor; assumption.
        + change (c :: s) with ([] ++ c :: s). constructor; assumption. }
    rewrite Hsplit. destruct (nullable r1) eqn:Hn.
    + rewrite matches_alt_smart. apply nullable_matches in Hn. split.
      * inversion 1; subst; [left; apply Hcat; assumption | right; split; [assumption | apply IH2; assumption]].
      * intros [H|[_ H]]; [apply m_alt_l, Hcat, H | apply m_alt_r, IH2, H].
    + rewrite Hcat. split; [auto|]. intros [H|[H _]]; [exact H|].
      apply nullable_matches in H. congruence.
  - rewrite matches_alt_smart. split.
    + inversion 1; subst; [apply m_alt_l, IH1 | apply m_alt_r, IH2]; assumption.
    + inversion 1; subst; [apply m_alt_l, IH1 | apply m_alt_r, IH2]; assumption.
  - rewrite matches_cat_smart. split.
    + inversion 1 as [| |? ? s1 s2 H1 H2| | | |]; subst.
      change (c :: s1 ++ s2) with ((c :: s1) ++ s2).
      constructor; [apply IH|]; assumption.
    + intros Hm. apply matches_star_cons in Hm as [E|(c' & s1 & s2 & E & H1 & H2)];
        [discriminate|].
      injection E as Ec Es. subst c' s. constructor; [apply IH|]; assumption.
Qed.


Lemma search_prefix_matches r s :
  search_prefix r s = true ↔ ∃ p q, s = p ++ q ∧ matches r p.
Proof.
  revert r. induction s as [|c s IH]; intros r; simpl.
  - rewrite orb_false_r, nullable_matches. split.
    + intros Hm. exists [], []. auto.
    + intros (p & q & E & Hm). symmetry in E. apply app_eq_nil in E as [-> _].
      exact Hm.
  - rewrite orb_true_iff, nullable_matches, IH. split.
    + intros [Hm|(p & q & -> & Hm)].
      * exists [], (c :: s). auto.
      * exists (c :: p), q. split; [reflexivity | apply deriv_matches, Hm].
    + intros (p & q & E & Hm). destruct p as [|c' p]; [left; exact Hm|].
      simpl in E. injection E as Ec Es. subst c' s. right. exists p, q.
      split; [reflexivity | apply deriv_matches, Hm].
Qed.

End RegexFacts.

(** ** Strings: cleaning never lengthens a text *)

Lemma lstrip_length s : (length (Str.lstrip s) ≤ length s)%nat.
Proof.
  induction s as [|c s IH]; simpl; [lia|].
  destruct (Char.isspace c); simpl; lia.
Qed.

Lemma strip_length s : (length (Str.strip s) ≤ length s)%nat.
Proof.
  unfold Str.strip, Str.rstrip. rewrite length_rev.
  etransitivity; [apply lstrip_length|]. rewrite length_rev.
  apply lstrip_length.
Qed.

Lemma sub_whitespace_length b s : (length (sub_whitespace b s) ≤ length s)%nat.
Proof.
  revert b. induction s as [|c s IH]; intros b; simpl; [lia|].
  destruct (Char.isspace c); [destruct b|]; simpl;
    match goal with |- context [sub_whitespace ?b' s] => specialize (IH b') end;
    lia.
Qed.

(** After the substitution every whitespace character is a space. *)
Lemma sub_whitespace_spaces b s c :
  c ∈ sub_whitespace b s → Char.isspace c = true → c = Char.space.
Proof.
  revert b. induction s as [|c' s IH]; intros b; simpl.
  - intros Hin. inversion Hin.
  - destruct (Char.isspace c') eqn:Hc'; [destruct b|].
    + apply IH.
    + intros Hin Hc. apply elem_of_cons in Hin as [->|Hin]; [reflexivity|].
      exact (IH _ Hin Hc).
    + intros Hin Hc. apply elem_of_cons in Hin as [->|Hin]; [congruence|].
      exact (IH _ Hin Hc).
Qed.

Lemma clean_text_length text : (length (clean_text text) ≤ length text)%nat.
Proof.
  unfold clean_text.
  etransitivity; [apply strip_length|].
  etransitivity; [apply List.filter_length_le|].
  apply sub_whitespace_length.
Qed.

(** ** Image extraction: the loop keeps the images whose body returns *)

Section ImageFacts.
Context {ext : Externals}.

Lemma image_loop_records page_index imgs image_data :
  fold_left (image_step page_index) imgs image_data
  = image_data ++ records (map (pair page_index) imgs).
Proof.
  revert image_data. induction imgs as [|img imgs IH]; intros image_data; simpl.
  - rewrite app_nil_r. reflexivity.
  - rewrite IH. unfold image_step, records, record_of. simpl.
    destruct (process_image page_index img); simpl.
    + rewrite <- app_assoc. reflexivity.
    + reflexivity.
Qed.

Lemma images_loop_records page_index doc image_data :
  images_loop page_index doc image_data
  = image_data ++ records (enumerate_images page_index doc).
Proof.
  revert page_index image_data.
  induction doc as [|p doc IH]; intros page_index image_data; simpl.
  - rewrite app_nil_r. reflexivity.
  - rewrite IH, image_loop_records. unfold records.
    rewrite omap_app, app_assoc. reflexivity.
Qed.

Lemma extract_images_records file doc :
  fitz_open file = Ok doc →
  extract_images_from_pdf file = Ok (records (enumerate_images 0 doc)).
Proof.
  intros Hopen. unfold extract_images_from_pdf. rewrite Hopen. simpl.
  unfold mret, result_ret. rewrite images_loop_records. reflexivity.
Qed.

Lemma records_skip l1 x l2 :
  record_of x = None → records (l1 ++ x :: l2) = records l1 ++ records l2.
Proof.
  intros Hx. unfold records. rewrite omap_app. simpl. rewrite Hx. reflexivity.
Qed.

Lemma records_all_ok l :
  Forall (λ x, ∃ d, process_image x.1 x.2 = Ok d) l →
  Forall2 (λ x d, process_image x.1 x.2 = Ok d) l (records l).
Proof.
  induction 1 as [|x l [d Hd] _ IH]; simpl.
  - constructor.
  - unfold records. simpl. unfold record_of at 1. rewrite Hd.
    constructor; assumption.
Qed.

Lemma load_failure_raises page_index img e :
  load_image img = Raise e → process_image page_index img = Raise e.
Proof. intros H. unfold process_image. rewrite H. reflexivity. Qed.

Lemma ocr_failure_raises page_index img b im e :
  load_image img = Ok (b, im) → image_to_string im = Raise e →
  ∃ e', process_image page_index img = Raise e'.
Proof.
  intros Hload Hocr. unfold process_image. rewrite Hload. simpl.
  destruct (save_PNG im); simpl; [|eauto].
  destruct (get_image_bbox img); simpl; [|eauto].
  rewrite Hocr. simpl. eauto.
Qed.

End ImageFacts.

(** ** Failures inside the loop over the images *)

(** C2 (as stated) fails: an image that decodes but whose recognition fails
    is absent from the output of image extraction. *)
Lemma ocr_failure_drops_image :
  let ext := Sample.externals (Ok Sample.doc_only_ocr_failure) in
  let img := Sample.embedded [Byte.x00] in
  (∃ b im e, load_image img = Ok (b, im) ∧ image_to_string im = Raise e)
  ∧ enumerate_images 0 Sample.doc_only_ocr_failure = [(0%nat, img)]
  ∧ extract_images_from_pdf [] = Ok [].
Proof.
  simpl. split; [|split; reflexivity].
  eexists _, _, _. split; reflexivity.
Qed.

(** C2 (as amended): when the bitmap of an embedded image decodes and its
    text recognition fails, image extraction returns normally and its output
    is the records of the images before it followed by the records of the
    images after it: the image is skipped and the failure does not leave
    the loop. *)
Theorem ocr_failure_skips_image `{Externals} file doc l1 x l2 b im e :
  fitz_open file = Ok doc →
  enumerate_images 0 doc = l1 ++ x :: l2 →
  load_image x.2 = Ok (b, im) →
  image_to_string im = Raise e →
  extract_images_from_pdf file = Ok (records l1 ++ records l2).
Proof.
  intros Hopen Henum Hload Hocr.
  rewrite (extract_images_records _ _ Hopen), Henum.
  rewrite records_skip; [reflexivity|].
  destruct (ocr_failure_raises x.1 x.2 b im e Hload Hocr) as [e' He'].
  unfold record_of. rewrite He'. reflexivity.
Qed.

Lemma ocr_failure_skips_image_witness :
  let ext := Sample.externals (Ok Sample.doc_ocr_failure) in
  extract_images_from_pdf []
  = Ok (records [(0%nat, Sample.embedded [Byte.x04])]
        ++ records [(0%nat, Sample.embedded [Byte.x01])]).
Proof.
  intros ext.
  eapply (ocr_failure_skips_image [] Sample.doc_ocr_failure
            [(0%nat, Sample.embedded [Byte.x04])]
            (0%nat, Sample.embedded [Byte.x00])
            [(0%nat, Sample.embedded [Byte.x01])]);
    reflexivity.
Defined.

(** C7 (as stated) fails: of two embedded images the first fails to decode
    and the second decodes, but its text recognition fails; image extraction
    returns normally with no record at all, not with the K-1 = 1 record of
    the other image. *)
Lemma decode_failure_loses_unreadable_image :
  let ext := Sample.externals (Ok Sample.doc_corrupt_and_unreadable) in
  let other := Sample.embedded [Byte.x00] in
  enumerate_images 0 Sample.doc_corrupt_and_unreadable
  = [(0%nat, Sample.corrupt); (0%nat, other)]
  ∧ (∃ e, load_image Sample.corrupt = Raise e)
  ∧ (∃ b im, load_image other = Ok (b, im))
  ∧ extract_images_from_pdf [] = Ok []
  ∧ ¬ (∃ out, extract_images_from_pdf [] = Ok out
              ∧ length out
                = (length (enumerate_images 0 Sample.doc_corrupt_and_unreadable)
                   - 1)%nat).
Proof.
  simpl. split; [reflexivity|]. split; [eexists; reflexivity|].
  split; [eexists _, _; reflexivity|]. split; [reflexivity|].
  intros (out & [= <-] & Hlen). discriminate Hlen.
Qed.

(** C7 (as amended): when one of the K embedded images of a document fails
    to decode, image extraction returns normally and its output is the
    records of the other images, in source order, with none for the image
    that failed; when the other images are processed without error these
    are K-1 records, one per other image. *)
Theorem decode_failure_isolated `{Externals} file doc l1 x l2 e :
  fitz_open file = Ok doc →
  enumerate_images 0 doc = l1 ++ x :: l2 →
  load_image x.2 = Raise e →
  extract_images_from_pdf file = Ok (records (l1 ++ l2))
  ∧ (Forall (λ y, ∃ d, process_image y.1 y.2 = Ok d) (l1 ++ l2) →
     length (records (l1 ++ l2)) = (length (enumerate_images 0 doc) - 1)%nat
     ∧ Forall2 (λ y d, process_image y.1 y.2 = Ok d)
         (l1 ++ l2) (records (l1 ++ l2))).
Proof.
  intros Hopen Henum Hload. split.
  - rewrite (extract_images_records _ _ Hopen), Henum.
    rewrite records_skip; [unfold records; rewrite omap_app; reflexivity|].
    unfold record_of. rewrite (load_failure_raises _ _ _ Hload). reflexivity.
  - intros Hothers. assert (Hall := records_all_ok _ Hothers).
    split; [|exact Hall].
    rewrite <- (Forall2_length _ _ _ Hall), Henum.
    rewrite !length_app. simpl. lia.
Qed.

Lemma decode_failure_isolated_witness :
  let ext := Sample.externals (Ok Sample.doc_corrupt) in
  let others := [(0%nat, Sample.embedded [Byte.x04]);
                 (1%nat, Sample.embedded [Byte.x02])] in
  extract_images_from_pdf [] = Ok (records others)
  ∧ length (records others) = 2%nat
  ∧ Forall2 (λ y d, process_image y.1 y.2 = Ok d) others (records others).
Proof.
  intros ext others.
  destruct (decode_failure_isolated [] Sample.doc_corrupt
              [(0%nat, Sample.embedded [Byte.x04])]
              (0%nat, Sample.corrupt)
              [(1%nat, Sample.embedded [Byte.x02])]
              (Exception "bad xref"))
    as [Hout Hcount]; [reflexivity | reflexivity | reflexivity |].
  split; [exact Hout|].
  apply Hcount. repeat constructor; eexists; reflexivity.
Defined.

(** ** The text given to the recognizer *)

(** C3 (as stated) fails: on a text of 99,999 spaces followed by [ab] the
    entity extractor hands [a] to the recognizer, while cleaning the whole
    text and truncating afterwards gives [ab]. *)
Lemma ner_input_differs_on_padded :
  ner_input Sample.padded = py "a"
  ∧ cleaned_then_truncated Sample.padded = py "ab"
  ∧ ner_input Sample.padded ≠ cleaned_then_truncated Sample.padded.
Proof.
  assert (H1 : ner_input Sample.padded = py "a") by (vm_compute; reflexivity).
  assert (H2 : cleaned_then_truncated Sample.padded = py "ab")
    by (vm_compute; reflexivity).
  split; [exact H1|]. split; [exact H2|].
  rewrite H1, H2. discriminate.
Qed.

(** C3 (as amended): the string handed to named-entity recognition is the
    result of first truncating the input text to its prefix of 100,000
    characters and then cleaning that prefix; it has at most 100,000
    characters, and it is the cleaned-then-truncated text whenever the input
    has at most 100,000 characters. *)
Theorem ner_input_truncates_then_cleans `{Externals} text :
  extract_entities text
  = (fold_left entity_step
       (ents (nlp (clean_text (take 100000 text)))) ([], ∅)).1
  ∧ ner_input text = clean_text (take 100000 text)
  ∧ (length (ner_input text) ≤ 100000)%nat
  ∧ ((length text ≤ 100000)%nat → ner_input text = cleaned_then_truncated text).
Proof.
  split; [reflexivity|]. split; [reflexivity|].
  assert (Hlen : (length (ner_input text) ≤ 100000)%nat).
  { unfold ner_input. etransitivity; [apply clean_text_length|].
    rewrite length_take. apply Nat.le_min_l. }
  split; [exact Hlen|].
  intros Hshort. unfold ner_input, cleaned_then_truncated.
  rewrite (take_ge text) by exact Hshort.
  rewrite take_ge; [reflexivity|].
  etransitivity; [apply clean_text_length|exact Hshort].
Qed.

Lemma ner_input_truncates_then_cleans_witness :
  let ext := Sample.externals (Ok []) in
  ner_input (py "  Ada   Lovelace# ") = py "Ada Lovelace"
  ∧ ner_input (py "  Ada   Lovelace# ")
    = cleaned_then_truncated (py "  Ada   Lovelace# ").
Proof.
  intros ext. split; [vm_compute; reflexivity|].
  destruct (ner_input_truncates_then_cleans (py "  Ada   Lovelace# "))
    as (_ & _ & _ & Hshort).
  apply Hshort. apply Nat.leb_le. vm_compute. reflexivity.
Defined.

(** ** Chart classification *)

Section ChartFacts.
Context {ext : Externals}.

Lemma chart_heuristic_no_subtype a :
  (chart_heuristic a).1 = false → (chart_heuristic a).2 = None.
Proof. unfold chart_heuristic. simpl. intros ->. reflexivity. Qed.

Lemma detect_charts_array_no_subtype a :
  (detect_charts_array a).1 = false → (detect_charts_array a).2 = None.
Proof.
  destruct a as [a|depth a]; simpl; [reflexivity|].
  destruct (bool_decide (depth = 1%nat)); [reflexivity|].
  apply chart_heuristic_no_subtype.
Qed.

Lemma detect_charts_no_subtype image :
  (detect_charts image).1 = false → (detect_charts image).2 = None.
Proof.
  unfold detect_charts. destruct (np_array image); [|reflexivity].
  apply detect_charts_array_no_subtype.
Qed.

Lemma process_image_fresh page_index img d :
  process_image page_index img = Ok d →
  is_chart d = None ∧ chart_type d = None.
Proof.
  unfold process_image.
  destruct (load_image img) as [[b im]|]; simpl; [|discriminate].
  destruct (save_PNG im); simpl; [|discriminate].
  destruct (get_image_bbox img); simpl; [|discriminate].
  destruct (image_to_string im); simpl; [|discriminate].
  intros [= <-]. split; reflexivity.
Qed.

Lemma records_fresh l d :
  d ∈ records l → is_chart d = None ∧ chart_type d = None.
Proof.
  unfold records. rewrite list_elem_of_omap. intros (x & _ & Hx).
  unfold record_of in Hx.
  destruct (process_image x.1 x.2) as [d'|] eqn:Hp; [|discriminate].
  injection Hx as ->. exact (process_image_fresh _ _ _ Hp).
Qed.

Lemma classify_image_no_subtype d :
  chart_type d = None →
  is_chart (classify_image d) = Some false →
  chart_type (classify_image d) = None.
Proof.
  intros Hfresh. unfold classify_image.
  destruct (b64decode (base64 d)) as [img_bytes|]; simpl; [|auto].
  destruct (Image_open img_bytes) as [img|]; simpl; [|auto].
  unfold mret, result_ret.
  pose proof (detect_charts_no_subtype img) as Hdet.
  destruct (detect_charts img) as [is_chart0 [k|]]; simpl in *.
  - intros [= ->]. specialize (Hdet eq_refl). discriminate.
  - auto.
Qed.

Lemma analyze_pdf_images request_file r :
  analyze_pdf request_file = Analysis r →
  ∃ file doc,
    request_file = Some file
    ∧ fitz_open (fs_stream file) = Ok doc
    ∧ text_by_page r = map get_text doc
    ∧ images r = map classify_image (records (enumerate_images 0 doc)).
Proof.
  unfold analyze_pdf. destruct request_file as [file|]; [|discriminate].
  destruct (bool_decide (fs_filename file = [])); [discriminate|].
  destruct (file_save _ (fs_stream file)); simpl; [|discriminate].
  unfold extract_text_from_pdf.
  destruct (fitz_open (fs_stream file)) as [doc|] eqn:Hopen; simpl;
    [|discriminate].
  rewrite (extract_images_records _ _ Hopen).
  destruct (analyze_document_structure (map get_text doc)).
  intros [= <-]. exists file, doc. simpl. auto.
Qed.

End ChartFacts.

(** The two guards of lines 85-89: an array with two dimensions, or with a
    last axis of one entry, is rejected. *)
Lemma single_channel_is_rejected `{Externals} image :
  (∀ a, np_array image = Ok (Array2 a) → detect_charts image = (false, None))
  ∧ (∀ a, np_array image = Ok (Array3 1 a) →
          detect_charts image = (false, None)).
Proof.
  unfold detect_charts. split; intros a ->; reflexivity.
Qed.

(** C4: a grey image with an alpha channel (mode LA, an array with a last
    axis of two entries) passes both guards: no array of that shape is
    rejected or reduced to its grey plane, the heuristic runs on the grey
    and alpha values together, and this 2x2 image is classified as a chart
    of subtype other, whereas its grey plane alone is rejected and the
    alpha values of a four-channel image are dropped. *)
Theorem two_channel_image_is_chart :
  let ext := Sample.externals (Ok []) in
  let image := {| im_mode := py "LA"; im_width := 2; im_height := 2;
                  im_fp := [Byte.x01] |} in
  np_array image
  = Ok (Array3 2 [ [ [0; 255]; [1; 255] ]; [ [1; 255]; [1; 255] ] ])
  ∧ detect_charts image = (true, Some other_chart)
  ∧ detect_charts_array (Array2 [ [0; 1]; [1; 1] ]) = (false, None)
  ∧ (∀ a, detect_charts_array (Array3 2 a) = chart_heuristic a)
  ∧ (∀ a, detect_charts_array (Array3 4 a) = chart_heuristic (Np.first3 a)).
Proof.
  assert (Hd : let ext := Sample.externals (Ok []) in
               detect_charts {| im_mode := py "LA"; im_width := 2;
                                im_height := 2; im_fp := [Byte.x01] |}
               = (true, Some other_chart)) by (vm_compute; reflexivity).
  simpl in *. split; [reflexivity|]. split; [exact Hd|].
  split; [reflexivity|]. split; intros a; reflexivity.
Qed.

(** What the code computes on a bitmap with several channels (the first
    three of them when there are four), in terms of its own edge sums:
    is_chart exactly when there are fewer than 50 distinct colour tuples
    and the ratio edges_h / (edges_v + 1e-10) is strictly between 0.5 and
    2.0; a chart has subtype bar when the ratio exceeds 1.2, line when it is
    below 0.8, and other otherwise. *)
Lemma detect_charts_decision `{Externals} image depth a :
  np_array image = Ok (Array3 depth a) →
  depth ≠ 1%nat →
  let px := if bool_decide (depth = 4%nat) then Np.first3 a else a in
  let r := edge_ratio px in
  ((detect_charts image).1 = true ↔
     (Np.unique_count px < 50)%nat
     ∧ PrimFloat.ltb 0.5 r = true ∧ PrimFloat.ltb r 2.0 = true)
  ∧ ((detect_charts image).1 = true →
     (detect_charts image).2
     = Some (if PrimFloat.ltb 1.2 r then bar_chart
             else if PrimFloat.ltb r 0.8 then line_chart
             else other_chart)).
Proof.
  intros Harr Hdepth px r. unfold detect_charts. rewrite Harr. simpl.
  rewrite bool_decide_eq_false_2 by exact Hdepth.
  fold px. unfold chart_heuristic. fold r. simpl. split.
  - rewrite !andb_true_iff, bool_decide_eq_true. reflexivity.
  - intros ->. destruct (PrimFloat.ltb 1.2 r); [reflexivity|].
    destruct (PrimFloat.ltb r 0.8); reflexivity.
Qed.

(** A difference of two [uint8] values is the absolute difference where the
    second value is the larger one, and 256 minus the absolute difference
    where it is the smaller one. *)
Lemma u8_sub_cases x y :
  0 ≤ x < 256 → 0 ≤ y < 256 →
  Np.u8_sub y x = if bool_decide (x ≤ y) then Z.abs (y - x)
                  else 256 - Z.abs (y - x).
Proof.
  intros Hx Hy. unfold Np.u8_sub. case_bool_decide.
  - rewrite Z.mod_small by lia. lia.
  - rewrite <- (Z.mod_add _ 1) by lia. rewrite Z.mod_small by lia. lia.
Qed.

(** Where no value falls from a pixel to the next one, the difference of
    the code is the absolute difference of the rule. *)
Lemma diff_pixel_rising p q :
  Forall (λ v, 0 ≤ v < 256) p → Forall (λ v, 0 ≤ v < 256) q →
  Forall2 Z.le p q →
  Np.diff_pixel p q = abs_diff_pixel p q.
Proof.
  intros Hp Hq Hle. unfold Np.diff_pixel, abs_diff_pixel.
  induction Hle as [|x y p q Hxy _ IH]; [reflexivity|].
  inversion Hp; inversion Hq; subst. simpl.
  rewrite u8_sub_cases, bool_decide_eq_true_2 by assumption.
  f_equal. apply IH; assumption.
Qed.

(** C5: on this 2x2 image with three colours the sums of the absolute
    differences are 2 and 2, so that the rule (fewer than 50 colours, ratio
    strictly between 0.5 and 2.0) makes it a chart of subtype other; the
    classifier takes the differences in [uint8], where each step down by one
    counts 255, obtains the sums 510 and 2, and answers that the image is
    not a chart. *)
Theorem detect_charts_wraps_differences :
  let ext := Sample.externals (Ok []) in
  let image := {| im_mode := py "RGB"; im_width := 2; im_height := 2;
                  im_fp := [Byte.x08] |} in
  let px := [ [ [1; 0; 0]; [2; 0; 0] ]; [ [0; 0; 0]; [1; 0; 0] ] ] in
  np_array image = Ok (Array3 3 px)
  ∧ Np.unique_count px = 3%nat
  ∧ edge_h px = 2 ∧ edge_v px = 2
  ∧ chart_rule px = (true, Some other_chart)
  ∧ Np.sum (Np.abs (Np.diff_axis0 px)) = 510
  ∧ Np.sum (Np.abs (Np.diff_axis1 px)) = 2
  ∧ detect_charts image = (false, None).
Proof. repeat split; vm_compute; reflexivity. Qed.

(** C8: a classification with is_chart = false carries no subtype, and in
    every analysis result every image record whose is_chart is false has no
    chart_type entry, also when classification of the image raised. *)
Theorem non_chart_has_no_chart_type `{Externals} :
  (∀ image, (detect_charts image).1 = false → (detect_charts image).2 = None)
  ∧ (∀ d, chart_type d = None →
          is_chart (classify_image d) = Some false →
          chart_type (classify_image d) = None)
  ∧ (∀ request_file r,
       analyze_pdf request_file = Analysis r →
       Forall (λ d, is_chart d = Some false → chart_type d = None) (images r)).
Proof.
  split; [exact detect_charts_no_subtype|].
  split; [exact classify_image_no_subtype|].
  intros request_file r Hr.
  destruct (analyze_pdf_images _ _ Hr) as (file & doc & _ & _ & _ & ->).
  apply Forall_forall. intros d' Hd'.
  apply list_elem_of_fmap in Hd' as (d & -> & Hd).
  apply classify_image_no_subtype.
  exact (proj2 (records_fresh _ _ Hd)).
Qed.

Lemma non_chart_has_no_chart_type_witness :
  let ext := Sample.externals (Ok Sample.doc_mixed) in
  ∃ r, analyze_pdf (Sample.upload "a.pdf") = Analysis r
       ∧ length (images r) = 4%nat
       ∧ Forall (λ d, is_chart d = Some false → chart_type d = None) (images r).
Proof.
  intros ext. eexists. split; [vm_compute; reflexivity|].
  split; [reflexivity|].
  refine (proj2 (proj2 non_chart_has_no_chart_type)
            (Sample.upload "a.pdf") _ _).
  vm_compute. reflexivity.
Defined.

(** ** Summaries *)

(** C6: when the summary made of the first five sentences of the truncated
    cleaned text has fewer than 100 characters and the cleaned text has more
    than 100, the summarizer returns the first 300 characters of the cleaned
    text followed by three dots; otherwise it returns the sentence summary
    unchanged. *)
Theorem summarize_text_fallback `{Externals} text :
  let clean := clean_text text in
  let summary :=
    Str.join (py " ")
      (map span_text (take 5 (sents (nlp (take 10000 clean))))) in
  ((length summary < 100)%nat ∧ (100 < length clean)%nat →
   summarize_text text = take 300 clean ++ py "...")
  ∧ (¬ ((length summary < 100)%nat ∧ (100 < length clean)%nat) →
     summarize_text text = summary).
Proof.
  intros clean summary. unfold summarize_text. fold clean.
  change (sentence_summary clean) with summary.
  destruct (bool_decide (length summary < 100)%nat
            && bool_decide (100 < length clean)%nat) eqn:Hc.
  - split; [reflexivity|]. intros Hn. exfalso. apply Hn.
    apply andb_true_iff in Hc as [H1 H2].
    apply bool_decide_eq_true in H1, H2. auto.
  - split; [|reflexivity]. intros [H1 H2].
    apply andb_false_iff in Hc as [Hc|Hc];
      apply bool_decide_eq_false in Hc; contradiction.
Qed.

Lemma summarize_text_fallback_witness :
  let ext := Sample.externals (Ok []) in
  summarize_text Sample.short_sentences
  = take 300 Sample.short_sentences ++ py "..."
  ∧ summarize_text (py "A B C.") = py "A B C ".
Proof.
  intros ext. split.
  - destruct (summarize_text_fallback Sample.short_sentences) as [Hfb _].
    rewrite Hfb; [vm_compute; reflexivity|].
    split; apply Nat.ltb_lt; vm_compute; reflexivity.
  - destruct (summarize_text_fallback (py "A B C.")) as [_ Hkeep].
    rewrite Hkeep; [vm_compute; reflexivity|].
    intros [_ Hlong]. apply Nat.ltb_lt in Hlong. vm_compute in Hlong.
    discriminate Hlong.
Defined.

(** ** Structure analysis *)

Lemma page_step_combined st page_num page_text :
  st_combined_text (page_step st page_num page_text)
  = st_combined_text st ++ page_text.
Proof.
  unfold page_step.
  destruct (fold_left _ _ _). reflexivity.
Qed.

Lemma pages_loop_combined st page_num text_by_page :
  st_combined_text (pages_loop st page_num text_by_page)
  = st_combined_text st ++ concat text_by_page.
Proof.
  revert st page_num.
  induction text_by_page as [|page_text rest IH]; intros st page_num; simpl.
  - rewrite app_nil_r. reflexivity.
  - rewrite IH, page_step_combined, app_assoc. reflexivity.
Qed.

Lemma analyze_pdf_text request_file r `{Externals} :
  analyze_pdf request_file = Analysis r →
  entities r
  = extract_entities (analyze_document_structure (text_by_page r)).2
  ∧ summary r
    = summarize_text (analyze_document_structure (text_by_page r)).2.
Proof.
  unfold analyze_pdf. destruct request_file as [file|]; [|discriminate].
  destruct (bool_decide (fs_filename file = [])); [discriminate|].
  destruct (file_save _ (fs_stream file) ≫= _) as [pages|]; [|discriminate].
  destruct (analyze_document_structure pages) as [s combined] eqn:Hs.
  destruct (extract_images_from_pdf (fs_stream file)); [|discriminate].
  intros [= <-]. cbn [entities summary text_by_page]. rewrite Hs. auto.
Qed.

(** C10: the combined text returned by the structure analyzer is the
    concatenation of the page texts in page order, with nothing between two
    pages, and it is this text that entity extraction and summarization
    receive. *)
Theorem combined_text_is_concatenation `{Externals} :
  (∀ text_by_page,
     (analyze_document_structure text_by_page).2 = concat text_by_page)
  ∧ (∀ request_file r,
       analyze_pdf request_file = Analysis r →
       entities r = extract_entities (concat (text_by_page r))
       ∧ summary r = summarize_text (concat (text_by_page r))).
Proof.
  assert (Hconcat : ∀ text_by_page,
            (analyze_document_structure text_by_page).2 = concat text_by_page).
  { intros text_by_page. unfold analyze_document_structure. simpl.
    rewrite pages_loop_combined. reflexivity. }
  split; [exact Hconcat|].
  intros request_file r Hr.
  rewrite <- Hconcat. exact (analyze_pdf_text _ _ Hr).
Qed.

Lemma combined_text_is_concatenation_witness :
  let ext := Sample.externals (Ok Sample.doc_mixed) in
  (analyze_document_structure [py "Report"; py "s here"]).2 = py "Reports here"
  ∧ ∃ r, analyze_pdf (Sample.upload "a.pdf") = Analysis r
         ∧ text_by_page r = [py "Report"; py "s here"]
         ∧ entities r = extract_entities (concat (text_by_page r))
         ∧ summary r = summarize_text (concat (text_by_page r)).
Proof.
  intros ext. split.
  - exact (proj1 combined_text_is_concatenation [py "Report"; py "s here"]).
  - eexists. split; [vm_compute; reflexivity|]. split; [reflexivity|].
    refine (proj2 combined_text_is_concatenation
              (Sample.upload "a.pdf") _ _).
    vm_compute. reflexivity.
Defined.

(** ** The number pattern on a stripped text *)




Lemma lstrip_head s c r : Str.lstrip s = c :: r → Char.isspace c = false.
Proof.
  induction s as [|c' s IH]; simpl; [discriminate|].
  destruct (Char.isspace c') eqn:Hc; [exact IH|].
  intros [= -> _]. exact Hc.
Qed.

Lemma strip_last t l c : Str.strip t = l ++ [c] → Char.isspace c = false.
Proof.
  unfold Str.strip, Str.rstrip. intros Hs.
  apply (f_equal (@rev ascii)) in Hs.
  rewrite rev_involutive, rev_app_distr in Hs. simpl in Hs.
  exact (lstrip_head _ _ _ Hs).
Qed.


(** ** Entity extraction: the loop keeps first occurrences *)










(** ** The heading test *)

Lemma isupper_nonempty line : Str.isupper line = true → (0 < length line)%nat.
Proof.
  destruct line; simpl; [|lia].
  unfold Str.isupper. simpl. discriminate.
Qed.

Lemma heading_test_true line :
  heading_test line = true ↔
  ((0 < length line)%nat ∧ (length line < 100)%nat ∧ Str.isupper line = true)
  ∨ Re.search_prefix re_enumerated line = true
  ∨ Re.fullmatch re_title line = true.
Proof.
  unfold heading_test.
  rewrite !orb_true_iff, !andb_true_iff, !bool_decide_eq_true. tauto.
Qed.

(** Below 100 characters the test is the heading rule. *)
Lemma heading_test_short line :
  (length line < 100)%nat → heading_test line = heading_rule line.
Proof.
  intros Hlen. unfold heading_test, heading_rule.
  rewrite (bool_decide_eq_true_2 _ Hlen). simpl. rewrite andb_true_r.
  destruct (Str.isupper line) eqn:Hup; simpl.
  - rewrite bool_decide_eq_true_2 by (apply isupper_nonempty, Hup).
    reflexivity.
  - rewrite andb_false_r. reflexivity.
Qed.

(** A non-empty upper-case line under 100 characters passes the test. *)
Lemma uppercase_line_is_heading line :
  (length line < 100)%nat → Str.isupper line = true → heading_test line = true.
Proof.
  intros Hlen Hup. apply heading_test_true. left.
  split; [apply isupper_nonempty, Hup | auto].
Qed.

(** A line that passes no regular expression passes the test only when it
    is shorter than 100 characters. *)
Lemma long_line_needs_pattern line :
  (100 ≤ length line)%nat →
  heading_test line
  = Re.search_prefix re_enumerated line || Re.fullmatch re_title line.
Proof.
  intros Hlen. unfold heading_test.
  rewrite (bool_decide_eq_false_2 (length line < 100)%nat) by lia.
  rewrite andb_false_r. reflexivity.
Qed.

(** C1: on the line [1. A] followed by 100 letters [a], 104 characters in
    all, the test of the structure analyzer succeeds and the line opens a
    section on its page, although the heading rule, with its bound of 100
    characters, rejects it. *)
Theorem heading_test_ignores_length_bound :
  length Sample.long_enumerated = 104%nat
  ∧ Str.strip Sample.long_enumerated = Sample.long_enumerated
  ∧ heading_rule Sample.long_enumerated = false
  ∧ heading_test Sample.long_enumerated = true
  ∧ sections (analyze_document_structure [Sample.long_enumerated]).1
    = [ {| heading := Sample.long_enumerated; heading_page := 1 |} ].
Proof. repeat split; vm_compute; reflexivity. Qed.

(** * Further properties *)

(** ** Structure analysis: the sections are the heading lines *)

Lemma line_step_open page_num st line :
  open_sections (line_step page_num st line)
  = open_sections st
    ++ (if heading_test (Str.strip line)
        then [ {| heading := Str.strip line; heading_page := page_num + 1 |} ]
        else []).
Proof.
  unfold line_step, open_sections. destruct st as [secs [cur|]]; simpl;
    destruct (heading_test (Str.strip line)); simpl;
    rewrite ?app_nil_r, <- ?app_assoc; reflexivity.
Qed.

Lemma lines_loop_open page_num lines st :
  open_sections (fold_left (line_step page_num) lines st)
  = open_sections st
    ++ map (λ line, {| heading := line; heading_page := page_num + 1 |})
         (List.filter heading_test (map Str.strip lines)).
Proof.
  revert st. induction lines as [|line lines IH]; intros st; simpl.
  - rewrite app_nil_r. reflexivity.
  - rewrite IH, line_step_open.
    destruct (heading_test (Str.strip line)); simpl;
      rewrite <- ?app_assoc, ?app_nil_r; reflexivity.
Qed.

Lemma page_step_open st page_num page_text :
  let st' := page_step st page_num page_text in
  open_sections (st_sections st', st_current_section st')
  = open_sections (st_sections st, st_current_section st)
    ++ page_headings page_num page_text.
Proof.
  unfold page_step.
  pose proof (lines_loop_open page_num (Str.split Char.newline page_text)
                (st_sections st, st_current_section st)) as Hl.
  destruct (fold_left _ _ _) as [secs cur]. simpl. exact Hl.
Qed.

Lemma pages_loop_open st page_num text_by_page :
  let st' := pages_loop st page_num text_by_page in
  open_sections (st_sections st', st_current_section st')
  = open_sections (st_sections st, st_current_section st)
    ++ document_headings page_num text_by_page.
Proof.
  revert st page_num.
  induction text_by_page as [|page_text rest IH]; intros st page_num; simpl.
  - rewrite app_nil_r. reflexivity.
  - rewrite IH. rewrite page_step_open, <- app_assoc. reflexivity.
Qed.

Lemma analyze_sections text_by_page :
  sections (analyze_document_structure text_by_page).1
  = document_headings 0 text_by_page.
Proof.
  unfold analyze_document_structure. cbn [fst sections].
  pose proof (pages_loop_open
                {| st_sections := []; st_word_count := O;
                   st_combined_text := []; st_current_section := None |}
                O text_by_page) as Hp.
  cbn zeta in Hp. unfold open_sections in Hp. simpl in Hp.
  rewrite <- Hp.
  destruct (st_current_section _); simpl; rewrite ?app_nil_r; reflexivity.
Qed.

(** X1: the sections returned by the structure analyzer are exactly the
    stripped lines that pass the heading test, in reading order, each with
    the number of its page; the section still open when the last page ends
    is not lost. *)
Theorem sections_are_heading_lines text_by_page :
  let s := (analyze_document_structure text_by_page).1 in
  sections s = document_headings 0 text_by_page
  ∧ total_pages s = length text_by_page.
Proof. split; [apply analyze_sections | reflexivity]. Qed.

Lemma page_headings_page page_num page_text h :
  h ∈ page_headings page_num page_text → heading_page h = (page_num + 1)%nat.
Proof.
  unfold page_headings. intros Hin.
  apply list_elem_of_fmap in Hin as (line & -> & _). reflexivity.
Qed.

Lemma document_headings_range page_num text_by_page h :
  h ∈ document_headings page_num text_by_page →
  (page_num + 1 ≤ heading_page h ≤ page_num + length text_by_page)%nat.
Proof.
  revert page_num.
  induction text_by_page as [|page_text rest IH]; intros page_num; simpl.
  - intros Hin. inversion Hin.
  - intros Hin. apply elem_of_app in Hin as [Hin|Hin].
    + apply page_headings_page in Hin. lia.
    + apply IH in Hin. lia.
Qed.

Lemma document_headings_sorted page_num text_by_page :
  StronglySorted le (heading_page <$> document_headings page_num text_by_page).
Proof.
  revert page_num.
  induction text_by_page as [|page_text rest IH]; intros page_num; simpl.
  - constructor.
  - rewrite fmap_app. apply StronglySorted_app. split; [|split; [|apply IH]].
    + intros n1 n2 Hn1 Hn2.
      apply list_elem_of_fmap in Hn1 as (h1 & -> & Hh1).
      apply list_elem_of_fmap in Hn2 as (h2 & -> & Hh2).
      apply page_headings_page in Hh1. apply document_headings_range in Hh2.
      lia.
    + generalize (page_headings_page page_num page_text).
      induction (page_headings page_num page_text) as [|h l IHl]; intros Hp;
        simpl; constructor.
      * apply IHl. intros h' Hh'. apply Hp. right. exact Hh'.
      * apply Forall_forall. intros n Hn.
        apply list_elem_of_fmap in Hn as (h' & -> & Hh').
        rewrite (Hp h) by left. rewrite (Hp h') by (right; exact Hh'). lia.
Qed.

(** X2: the sections come in page order: their page numbers never decrease
    along the list, and each lies between 1 and the number of pages. *)
Theorem sections_in_page_order text_by_page :
  let s := (analyze_document_structure text_by_page).1 in
  StronglySorted le (heading_page <$> sections s)
  ∧ Forall (λ h, (1 ≤ heading_page h ≤ total_pages s)%nat) (sections s).
Proof.
  intros s. unfold s. rewrite analyze_sections. split.
  - apply document_headings_sorted.
  - apply Forall_forall. intros h Hh.
    apply document_headings_range in Hh. simpl in *. lia.
Qed.

(** ** Stripping *)

Lemma lstrip_suffix s :
  ∃ w, s = w ++ Str.lstrip s ∧ Forall (λ c, Char.isspace c = true) w.
Proof.
  induction s as [|c s (w & Hw & Hall)]; simpl.
  - exists []. split; [reflexivity | constructor].
  - destruct (Char.isspace c) eqn:Hc.
    + exists (c :: w). split; [simpl; congruence | constructor; assumption].
    + exists []. split; [reflexivity | constructor].
Qed.

Lemma rstrip_prefix s :
  ∃ w, s = Str.rstrip s ++ w ∧ Forall (λ c, Char.isspace c = true) w.
Proof.
  unfold Str.rstrip. destruct (lstrip_suffix (rev s)) as (w & Hw & Hall).
  exists (rev w). split.
  - rewrite <- rev_app_distr, <- Hw, rev_involutive. reflexivity.
  - apply Forall_rev. exact Hall.
Qed.

Lemma lstrip_fixed s :
  (∀ c r, s = c :: r → Char.isspace c = false) → Str.lstrip s = s.
Proof.
  destruct s as [|c r]; simpl; [reflexivity|].
  intros Hh. rewrite (Hh c r eq_refl). reflexivity.
Qed.

Lemma rstrip_head u c r :
  (∀ c' r', u = c' :: r' → Char.isspace c' = false) →
  Str.rstrip u = c :: r → Char.isspace c = false.
Proof.
  intros Hu Hr. destruct (rstrip_prefix u) as (w & Hw & _).
  rewrite Hr in Hw. simpl in Hw. exact (Hu _ _ Hw).
Qed.

Lemma strip_head s c r : Str.strip s = c :: r → Char.isspace c = false.
Proof.
  unfold Str.strip. apply rstrip_head.
  intros c' r' E. exact (lstrip_head _ _ _ E).
Qed.

Lemma strip_idempotent s : Str.strip (Str.strip s) = Str.strip s.
Proof.
  set (t := Str.strip s).
  assert (Hl : Str.lstrip t = t).
  { apply lstrip_fixed. intros c r E. exact (strip_head _ _ _ E). }
  unfold Str.strip at 1. rewrite Hl. unfold Str.rstrip.
  rewrite lstrip_fixed; [apply rev_involutive|].
  intros c r E. apply (strip_last s (rev r) c). fold t.
  rewrite <- (rev_involutive t), E. reflexivity.
Qed.

Lemma strip_elements s c : c ∈ Str.strip s → c ∈ s.
Proof.
  unfold Str.strip. intros Hc.
  destruct (rstrip_prefix (Str.lstrip s)) as (w1 & E1 & _).
  destruct (lstrip_suffix s) as (w2 & E2 & _).
  rewrite E2, E1. apply elem_of_app. right. apply elem_of_app. left. exact Hc.
Qed.

Lemma split_elements sep s l : l ∈ Str.split sep s → sep ∉ l.
Proof.
  revert l. induction s as [|c s IH]; intros l; simpl.
  - intros Hl. apply list_elem_of_singleton in Hl as ->. apply not_elem_of_nil.
  - destruct (bool_decide (c = sep)) eqn:Hc.
    + intros Hl. apply elem_of_cons in Hl as [->|Hl];
        [apply not_elem_of_nil | exact (IH _ Hl)].
    + apply bool_decide_eq_false in Hc.
      destruct (Str.split sep s) as [|l0 ls] eqn:Hs.
      * intros Hl. apply list_elem_of_singleton in Hl as ->.
        intros Hin. apply list_elem_of_singleton in Hin. congruence.
      * intros Hl. apply elem_of_cons in Hl as [->|Hl].
        -- intros Hin. apply elem_of_cons in Hin as [Hin|Hin];
             [congruence|]. apply (IH l0); [left | exact Hin].
        -- apply IH. right. exact Hl.
Qed.

(** ** Structure analysis: what a heading looks like *)

Lemma document_headings_lines page_num text_by_page h :
  h ∈ document_headings page_num text_by_page →
  ∃ page_text line,
    page_text ∈ text_by_page
    ∧ line ∈ Str.split Char.newline page_text
    ∧ heading h = Str.strip line
    ∧ heading_test (heading h) = true.
Proof.
  revert page_num.
  induction text_by_page as [|page_text rest IH]; intros page_num; simpl.
  - intros Hin. inversion Hin.
  - intros Hin. apply elem_of_app in Hin as [Hin|Hin].
    + unfold page_headings in Hin.
      apply list_elem_of_fmap in Hin as (t & -> & Ht).
      apply list_elem_of_In, List.filter_In in Ht as [Ht Htest].
      apply list_elem_of_In, list_elem_of_fmap in Ht as (line & -> & Hline).
      exists page_text, line. simpl. split; [left|]. auto.
    + destruct (IH _ Hin) as (p & line & Hp & Hrest).
      exists p, line. split; [right; exact Hp | exact Hrest].
Qed.

(** X3: every section heading is a line of one of the pages with its
    surrounding whitespace removed; it is not empty, neither starts nor ends
    with whitespace, contains no newline, and passes the heading test. *)
Theorem headings_are_stripped_lines text_by_page h :
  h ∈ sections (analyze_document_structure text_by_page).1 →
  (∃ page_text line,
      page_text ∈ text_by_page
      ∧ line ∈ Str.split Char.newline page_text
      ∧ heading h = Str.strip line)
  ∧ heading h ≠ []
  ∧ Str.strip (heading h) = heading h
  ∧ (Char.newline ∉ heading h)
  ∧ heading_test (heading h) = true.
Proof.
  rewrite analyze_sections. intros Hh.
  destruct (document_headings_lines _ _ _ Hh)
    as (page_text & line & Hp & Hline & Hstrip & Htest).
  split; [eauto|]. split; [|split; [|split]].
  - intros E. rewrite E in Htest. vm_compute in Htest. discriminate.
  - rewrite Hstrip. apply strip_idempotent.
  - rewrite Hstrip. intros Hin. apply strip_elements in Hin.
    exact (split_elements _ _ _ Hline Hin).
  - exact Htest.
Qed.

Lemma headings_are_stripped_lines_witness :
  let h := {| heading := py "1. Setup"; heading_page := 2 |} in
  heading h ≠ [] ∧ Str.strip (heading h) = heading h
  ∧ (Char.newline ∉ heading h).
Proof.
  intros h.
  destruct (headings_are_stripped_lines
              [py "OVERVIEW";
               (py "  1. Setup " ++ [Char.newline] ++ py "text")] h)
    as (_ & Hne & Hs & Hn & _).
  - vm_compute. right. left.
  - auto.
Defined.

(** ** Structure analysis: the word estimate *)

Lemma count_words_flag s :
  (count_words true s ≤ count_words false s ≤ count_words true s + 1)%nat.
Proof.
  destruct s as [|c s]; simpl; [lia|]. destruct (Char.word c); lia.
Qed.

Lemma count_words_app b s1 s2 :
  (count_words b (s1 ++ s2) ≤ count_words b s1 + count_words false s2
   ≤ count_words b (s1 ++ s2) + 1)%nat.
Proof.
  revert b. induction s1 as [|c s1 IH]; intros b; simpl.
  - destruct b; [pose proof (count_words_flag s2)|]; lia.
  - destruct (Char.word c).
    + specialize (IH true). lia.
    + specialize (IH false). lia.
Qed.

Lemma pages_loop_words st page_num text_by_page :
  st_word_count (pages_loop st page_num text_by_page)
  = (st_word_count st + page_word_total text_by_page)%nat.
Proof.
  revert st page_num.
  induction text_by_page as [|page_text rest IH]; intros st page_num; simpl.
  - lia.
  - rewrite IH. unfold page_step. destruct (fold_left _ _ _). simpl. lia.
Qed.

Lemma page_word_total_bounds text_by_page :
  (count_words false (concat text_by_page) ≤ page_word_total text_by_page
   ≤ count_words false (concat text_by_page) + (length text_by_page - 1))%nat.
Proof.
  induction text_by_page as [|page_text rest IH]; simpl; [lia|].
  pose proof (count_words_app false page_text (concat rest)) as Happ.
  destruct rest as [|next rest'].
  - simpl in *. rewrite app_nil_r in *. lia.
  - simpl length in *. lia.
Qed.

(** X4: the estimated word count is the sum of the word counts of the
    pages; it is at least the number of words of the combined text and
    exceeds it by at most one for every boundary between two pages, where
    a word that runs over the boundary is counted twice. *)
Theorem word_estimate_bounds text_by_page :
  let '(s, combined_text) := analyze_document_structure text_by_page in
  estimated_word_count s = page_word_total text_by_page
  ∧ (count_words false combined_text ≤ estimated_word_count s
     ≤ count_words false combined_text + (length text_by_page - 1))%nat.
Proof.
  unfold analyze_document_structure. cbn [estimated_word_count].
  rewrite pages_loop_words, pages_loop_combined. simpl.
  split; [reflexivity | apply page_word_total_bounds].
Qed.

(** ** Cleaning: the characters of a cleaned text *)

Lemma lstrip_nil s :
  Str.lstrip s = [] ↔ Forall (λ c, Char.isspace c = true) s.
Proof.
  induction s as [|c s IH]; simpl.
  - split; [constructor | reflexivity].
  - destruct (Char.isspace c) eqn:Hc.
    + rewrite IH. split; [constructor; assumption | inversion 1; assumption].
    + split; [discriminate | inversion 1; congruence].
Qed.

Lemma strip_nil s :
  Str.strip s = [] ↔ Forall (λ c, Char.isspace c = true) s.
Proof.
  rewrite <- lstrip_nil. unfold Str.strip. split.
  - intros E. destruct (rstrip_prefix (Str.lstrip s)) as (w & Hw & Hall).
    rewrite E in Hw. simpl in Hw.
    destruct (Str.lstrip s) as [|c r] eqn:Hl; [reflexivity|].
    apply lstrip_head in Hl. subst w. inversion Hall; congruence.
  - intros ->. reflexivity.
Qed.

Lemma sub_whitespace_blank b s :
  Forall (λ c, Char.isspace c = true)
    (List.filter allowed (sub_whitespace b s))
  ↔ Forall (λ c, Char.isspace c = true ∨ allowed c = false) s.
Proof.
  revert b. induction s as [|c s IH]; intros b; simpl.
  - split; constructor.
  - destruct (Char.isspace c) eqn:Hc; [destruct b|]; simpl.
    + rewrite IH. split; [constructor; auto | inversion 1; assumption].
    + rewrite Forall_cons, IH.
      split; [intros [_ H]; constructor; auto | inversion 1; auto].
    + destruct (allowed c) eqn:Ha; simpl.
      * rewrite Forall_cons, IH. split.
        -- intros [H _]. congruence.
        -- inversion 1 as [|? ? [H1|H1]]; congruence.
      * rewrite IH. split; [constructor; auto | inversion 1; assumption].
Qed.

(** X5: a cleaned text is empty exactly when every character of the input
    is whitespace or a character that cleaning removes. *)
Theorem clean_text_empty text :
  clean_text text = []
  ↔ Forall (λ c, Char.isspace c = true ∨ allowed c = false) text.
Proof.
  unfold clean_text. rewrite strip_nil. apply sub_whitespace_blank.
Qed.

(** X6: a cleaned text consists of allowed characters only (word
    characters, whitespace and the punctuation of the pattern), its only
    whitespace character is the space, and it neither starts nor ends with
    whitespace. *)
Theorem clean_text_characters text :
  Forall (λ c, allowed c = true ∧ (Char.isspace c = true → c = Char.space))
    (clean_text text)
  ∧ Str.strip (clean_text text) = clean_text text.
Proof.
  split; [|apply strip_idempotent].
  apply Forall_forall. intros c Hc. unfold clean_text in Hc.
  apply strip_elements, list_elem_of_In, List.filter_In in Hc as [Hc Ha].
  split; [exact Ha|].
  apply list_elem_of_In in Hc. exact (sub_whitespace_spaces _ _ _ Hc).
Qed.

Lemma sub_whitespace_single_spaced b s :
  single_spaced (sub_whitespace b s) = true
  ∧ (b = true → ∀ c r, sub_whitespace b s = c :: r → Char.isspace c = false).
Proof.
  revert b. induction s as [|c s IH]; intros b; simpl.
  - split; [reflexivity | discriminate].
  - destruct (Char.isspace c) eqn:Hc; [destruct b|].
    + apply IH.
    + split; [|discriminate]. destruct (IH true) as [Hs Hh].
      cbn [single_spaced]. rewrite Hs, andb_true_r.
      destruct (sub_whitespace true s) as [|d r] eqn:Hd; [reflexivity|].
      rewrite (Hh eq_refl d r eq_refl), andb_false_r. reflexivity.
    + split.
      * destruct (IH false) as [Hs _]. cbn [single_spaced].
        rewrite Hs, andb_true_r, Hc.
        destruct (sub_whitespace false s); reflexivity.
      * intros _ c' r [= <- _]. exact Hc.
Qed.

Lemma single_spaced_app_r w t :
  single_spaced (w ++ t) = true → single_spaced t = true.
Proof.
  induction w as [|c w IH]; simpl; [auto|].
  intros H. apply andb_true_iff in H as [_ H]. exact (IH H).
Qed.

Lemma single_spaced_app_l t w :
  single_spaced (t ++ w) = true → single_spaced t = true.
Proof.
  induction t as [|c t IH]; simpl; [reflexivity|].
  intros H. apply andb_true_iff in H as [Hc H]. rewrite (IH H), andb_true_r.
  destruct t as [|d t]; [reflexivity | exact Hc].
Qed.

Lemma sub_whitespace_allowed b s :
  Forall (λ c, allowed c = true) s →
  Forall (λ c, allowed c = true) (sub_whitespace b s).
Proof.
  intros Hall. revert b. induction Hall as [|c s Hc _ IH]; intros b; simpl.
  - constructor.
  - destruct (Char.isspace c); [destruct b|].
    + apply IH.
    + constructor; [reflexivity | apply IH].
    + constructor; [exact Hc | apply IH].
Qed.

Lemma Forall_forallb_true {A} (f : A → bool) l :
  forallb f l = true → Forall (λ x, f x = true) l.
Proof.
  induction l as [|x l IH]; simpl; [constructor|].
  intros H. apply andb_true_iff in H as [Hx Hl]. constructor; auto.
Qed.

Lemma filter_all {A} (f : A → bool) l :
  Forall (λ x, f x = true) l → List.filter f l = l.
Proof.
  induction 1 as [|x l Hx _ IH]; simpl; [reflexivity|].
  rewrite Hx, IH. reflexivity.
Qed.

(** X7: when the input contains allowed characters only, so that cleaning
    removes no character between two words, the cleaned text has no two
    adjacent whitespace characters. *)
Theorem clean_text_single_spaced text :
  Forall (λ c, allowed c = true) text →
  single_spaced (clean_text text) = true.
Proof.
  intros Hall. unfold clean_text.
  rewrite (filter_all allowed) by (apply sub_whitespace_allowed, Hall).
  set (u := sub_whitespace false text).
  assert (Hu : single_spaced u = true) by apply sub_whitespace_single_spaced.
  unfold Str.strip.
  destruct (lstrip_suffix u) as (w1 & E1 & _).
  destruct (rstrip_prefix (Str.lstrip u)) as (w2 & E2 & _).
  rewrite E1 in Hu. apply single_spaced_app_r in Hu.
  rewrite E2 in Hu. exact (single_spaced_app_l _ _ Hu).
Qed.

Lemma clean_text_single_spaced_witness :
  single_spaced (clean_text (py "  Fig. 3:   sales   2024 (EUR) ")) = true.
Proof.
  apply clean_text_single_spaced, Forall_forallb_true.
  vm_compute. reflexivity.
Defined.

(** ** Summaries: length *)

(** X8: when the cleaned text has more than 100 characters the returned
    summary has at least 100 characters: it is the sentence summary, or
    the fallback, which has at most 303 characters. *)
Theorem long_text_long_summary `{Externals} text :
  (100 < length (clean_text text))%nat →
  (100 ≤ length (summarize_text text))%nat
  ∧ (summarize_text text = sentence_summary (clean_text text)
     ∨ (length (summarize_text text) ≤ 303)%nat).
Proof.
  intros Hlong. unfold summarize_text.
  destruct (bool_decide (length (sentence_summary (clean_text text)) < 100)%nat)
    eqn:Hs; cbn [andb].
  - rewrite (bool_decide_eq_true_2 _ Hlong).
    rewrite length_app, length_take.
    change (length (py "...")) with 3%nat. split; [lia | right; lia].
  - apply bool_decide_eq_false in Hs. split; [lia | left; reflexivity].
Qed.

Lemma long_text_long_summary_witness :
  let ext := Sample.externals (Ok []) in
  (100 ≤ length (summarize_text Sample.short_sentences))%nat.
Proof.
  intros ext. apply long_text_long_summary.
  apply Nat.ltb_lt. vm_compute. reflexivity.
Defined.

(** ** Entities: the text beyond the limit *)

(** X9: entity extraction reads the first 100,000 characters of its input
    only: text appended to an input of at least 100,000 characters does not
    change the entities. *)
Theorem extract_entities_ignores_tail `{Externals} text more :
  (100000 ≤ length text)%nat →
  extract_entities (text ++ more) = extract_entities text.
Proof.
  intros Hlen. unfold extract_entities, ner_input.
  rewrite take_app_le by exact Hlen. reflexivity.
Qed.

Lemma extract_entities_ignores_tail_witness :
  let ext := Sample.externals (Ok []) in
  extract_entities (Sample.padded ++ py " Ada Lovelace")
  = extract_entities Sample.padded.
Proof.
  intros ext. apply extract_entities_ignores_tail.
  apply Nat.leb_le. vm_compute. reflexivity.
Defined.

(** ** Image extraction: order and completeness of the records *)

Section ImageOrder.
Context {ext : Externals}.

Lemma process_image_steps page_index img d :
  process_image page_index img = Ok d →
  ∃ base_image image png rect ocr,
    load_image img = Ok (base_image, image)
    ∧ save_PNG image = Ok png
    ∧ get_image_bbox img = Ok rect
    ∧ image_to_string image = Ok ocr
    ∧ d = {| page := page_index + 1;
             position := {| pos_x := x0 rect; pos_y := y0 rect;
                            pos_width := rect_width rect;
                            pos_height := rect_height rect |};
             base64 := b64encode png;
             size := (im_width image, im_height image);
             format := bi_ext base_image;
             ocr_text := ocr;
             is_chart := None;
             chart_type := None |}.
Proof.
  unfold process_image.
  destruct (load_image img) as [[base_image image]|]; simpl; [|discriminate].
  destruct (save_PNG image) as [png|] eqn:Hpng; simpl; [|discriminate].
  destruct (get_image_bbox img) as [rect|] eqn:Hrect; simpl; [|discriminate].
  destruct (image_to_string image) as [ocr|] eqn:Hocr; simpl; [|discriminate].
  intros [= <-]. exists base_image, image, png, rect, ocr. auto.
Qed.

Lemma record_of_page x d : record_of x = Some d → page d = (x.1 + 1)%nat.
Proof.
  unfold record_of.
  destruct (process_image x.1 x.2) as [d'|] eqn:Hp; [|discriminate].
  intros [= <-].
  destruct (process_image_steps _ _ _ Hp) as (? & ? & ? & ? & ? & _ & _ & _ & _ & ->).
  reflexivity.
Qed.

Lemma enumerate_images_range page_index doc x :
  x ∈ enumerate_images page_index doc →
  (page_index ≤ x.1 < page_index + length doc)%nat.
Proof.
  revert page_index. induction doc as [|p doc IH]; intros page_index; simpl.
  - intros Hin. inversion Hin.
  - intros Hin. apply elem_of_app in Hin as [Hin|Hin].
    + apply list_elem_of_fmap in Hin as (img & -> & _). simpl. lia.
    + apply IH in Hin. lia.
Qed.

Lemma enumerate_images_sorted page_index doc :
  StronglySorted le ((λ x, x.1) <$> enumerate_images page_index doc).
Proof.
  revert page_index. induction doc as [|p doc IH]; intros page_index; simpl.
  - constructor.
  - rewrite fmap_app. apply StronglySorted_app. split; [|split; [|apply IH]].
    + intros n1 n2 Hn1 Hn2.
      apply list_elem_of_fmap in Hn1 as (x1 & -> & Hx1).
      apply list_elem_of_fmap in Hn2 as (x2 & -> & Hx2).
      apply list_elem_of_fmap in Hx1 as (img & -> & _).
      apply enumerate_images_range in Hx2. simpl. lia.
    + induction (get_images p) as [|img imgs IHi]; simpl; constructor.
      * exact IHi.
      * apply Forall_forall. intros n Hn.
        apply list_elem_of_fmap in Hn as (x & -> & Hx).
        apply list_elem_of_fmap in Hx as (img' & -> & _). simpl. lia.
Qed.

Lemma records_sorted l :
  StronglySorted le ((λ x, x.1) <$> l) →
  StronglySorted le (page <$> records l).
Proof.
  induction l as [|x l IH]; simpl; [constructor|].
  intros Hs. apply StronglySorted_inv in Hs as [Hs Hx].
  unfold records. simpl. destruct (record_of x) as [d|] eqn:Hd; [|exact (IH Hs)].
  simpl. constructor; [exact (IH Hs)|].
  apply Forall_forall. intros n Hn.
  apply list_elem_of_fmap in Hn as (d' & -> & Hd').
  apply list_elem_of_omap in Hd' as (x' & Hx' & Hr').
  rewrite (record_of_page _ _ Hd), (record_of_page _ _ Hr').
  rewrite Forall_forall in Hx.
  assert (x.1 ≤ x'.1)%nat; [|lia].
  apply Hx. apply list_elem_of_fmap. exists x'. auto.
Qed.

Lemma records_length l : (length (records l) ≤ length l)%nat.
Proof.
  induction l as [|x l IH]; simpl; [lia|].
  unfold records. simpl. destruct (record_of x); simpl; fold (records l); lia.
Qed.

Lemma enumerate_images_length page_index doc :
  length (enumerate_images page_index doc)
  = foldr (λ p n, (length (get_images p) + n)%nat) O doc.
Proof.
  revert page_index. induction doc as [|p doc IH]; intros page_index; simpl.
  - reflexivity.
  - rewrite length_app, length_map, IH. reflexivity.
Qed.

End ImageOrder.

(** X10: the records of image extraction come in source order: their page
    numbers never decrease along the list and lie between 1 and the number
    of pages, and there are at most as many records as embedded images. *)
Theorem image_records_in_page_order `{Externals} file doc out :
  fitz_open file = Ok doc →
  extract_images_from_pdf file = Ok out →
  StronglySorted le (page <$> out)
  ∧ Forall (λ d, (1 ≤ page d ≤ length doc)%nat) out
  ∧ (length out
     ≤ foldr (λ p n, (length (get_images p) + n)%nat) O doc)%nat.
Proof.
  intros Hopen Hout. rewrite (extract_images_records _ _ Hopen) in Hout.
  injection Hout as <-. split; [|split].
  - apply records_sorted, enumerate_images_sorted.
  - apply Forall_forall. intros d Hd.
    apply list_elem_of_omap in Hd as (x & Hx & Hr).
    rewrite (record_of_page _ _ Hr). apply enumerate_images_range in Hx. lia.
  - rewrite <- (enumerate_images_length 0). apply records_length.
Qed.

Lemma image_records_in_page_order_witness :
  let ext := Sample.externals (Ok Sample.doc_mixed) in
  ∃ out, extract_images_from_pdf [] = Ok out
         ∧ page <$> out = [1; 1; 2; 2]%nat
         ∧ StronglySorted le (page <$> out).
Proof.
  intros ext. eexists. split; [vm_compute; reflexivity|].
  split; [reflexivity|].
  refine (proj1 (image_records_in_page_order [] Sample.doc_mixed _ _ _)).
  - reflexivity.
  - vm_compute. reflexivity.
Defined.

(** X11: a record is in the output of image extraction exactly when it is
    the record of an embedded image for which every step succeeded:
    extraction from the document, opening, conversion, PNG encoding, the
    bounding box and text recognition; its fields are the results of these
    steps, and it has neither an is_chart nor a chart_type entry. *)
Theorem image_record_is_complete `{Externals} file doc out d :
  fitz_open file = Ok doc →
  extract_images_from_pdf file = Ok out →
  d ∈ out ↔
  ∃ page_index img base_image image png rect ocr,
    (page_index, img) ∈ enumerate_images 0 doc
    ∧ load_image img = Ok (base_image, image)
    ∧ save_PNG image = Ok png
    ∧ get_image_bbox img = Ok rect
    ∧ image_to_string image = Ok ocr
    ∧ d = {| page := page_index + 1;
             position := {| pos_x := x0 rect; pos_y := y0 rect;
                            pos_width := rect_width rect;
                            pos_height := rect_height rect |};
             base64 := b64encode png;
             size := (im_width image, im_height image);
             format := bi_ext base_image;
             ocr_text := ocr;
             is_chart := None;
             chart_type := None |}.
Proof.
  intros Hopen Hout. rewrite (extract_images_records _ _ Hopen) in Hout.
  injection Hout as <-. unfold records. rewrite list_elem_of_omap. split.
  - intros ([page_index img] & Hx & Hr). unfold record_of in Hr. simpl in Hr.
    destruct (process_image page_index img) as [d'|] eqn:Hp; [|discriminate].
    injection Hr as ->.
    destruct (process_image_steps _ _ _ Hp)
      as (base_image & image & png & rect & ocr & Hsteps).
    exists page_index, img, base_image, image, png, rect, ocr. tauto.
  - intros (page_index & img & base_image & image & png & rect & ocr
            & Hx & Hload & Hpng & Hrect & Hocr & ->).
    exists (page_index, img). split; [exact Hx|].
    unfold record_of, process_image. simpl.
    rewrite Hload. simpl. rewrite Hpng. simpl. rewrite Hrect. simpl.
    rewrite Hocr. reflexivity.
Qed.

Lemma image_record_is_complete_witness :
  let ext := Sample.externals (Ok Sample.doc_corrupt) in
  {| page := 2;
     position := {| pos_x := 0; pos_y := 0; pos_width := 1; pos_height := 1 |};
     base64 := [ascii_of_byte Byte.x02];
     size := (1, 1);
     format := py "png";
     ocr_text := py "txt";
     is_chart := None;
     chart_type := None |}
  ∈ records (enumerate_images 0 Sample.doc_corrupt).
Proof.
  intros ext.
  refine (proj2 (image_record_is_complete [] Sample.doc_corrupt _ _ _ _) _).
  - reflexivity.
  - apply extract_images_records. reflexivity.
  - exists 1%nat, (Sample.embedded [Byte.x02]).
    eexists _, _, _, _, _.
    split; [vm_compute; right; right; left|].
    repeat (split; [reflexivity|]). reflexivity.
Defined.

(** X12: when [convert('RGB')] returns images whose mode is not CMYK, as
    Pillow does, no image of mode CMYK is encoded or given to text
    recognition: a CMYK image is replaced by its conversion, and an image
    whose conversion fails is not loaded. *)
Theorem cmyk_is_converted `{Externals} img base_image image :
  (∀ im im', convert_RGB im = Ok im' → im_mode im' ≠ py "CMYK") →
  load_image img = Ok (base_image, image) →
  im_mode image ≠ py "CMYK"
  ∧ ∃ opened, Image_open (bi_image base_image) = Ok opened
              ∧ (im_mode opened = py "CMYK" → convert_RGB opened = Ok image)
              ∧ (im_mode opened ≠ py "CMYK" → image = opened).
Proof.
  intros Hconv. unfold load_image.
  destruct (extract_image img) as [b|];
    cbn [mbind result_bind]; [|discriminate].
  destruct (Image_open (bi_image b)) as [opened|] eqn:Hopen;
    cbn [mbind result_bind]; [|discriminate].
  destruct (bool_decide (im_mode opened = py "CMYK")) eqn:Hmode.
  - apply bool_decide_eq_true in Hmode.
    destruct (convert_RGB opened) as [im'|] eqn:Hc;
      cbn [mbind result_bind]; [|discriminate].
    intros [= <- <-]. split; [exact (Hconv _ _ Hc)|].
    exists opened. split; [exact Hopen|]. split; [auto | contradiction].
  - apply bool_decide_eq_false in Hmode. cbn [mbind result_bind].
    intros [= <- <-].
    split; [exact Hmode|]. exists opened.
    split; [exact Hopen|]. split; [contradiction | auto].
Qed.

Lemma cmyk_is_converted_witness :
  let ext := pillow_like (Ok []) in
  ∃ base_image image,
    load_image (Sample.embedded [Byte.x06]) = Ok (base_image, image)
    ∧ im_mode image ≠ py "CMYK".
Proof.
  intros ext. eexists _, _. split; [reflexivity|].
  refine (proj1 (cmyk_is_converted (Sample.embedded [Byte.x06]) _ _ _ _)).
  - intros im im' [= <-]. discriminate.
  - reflexivity.
Defined.

(** ** Chart heuristic: images without vertical variation *)

Lemma zero_ratio_below_half y : PrimFloat.ltb 0.5 (0 / y) = false.
Proof.
  rewrite ltb_spec, div_spec.
  change (Prim2SF 0) with (S754_zero false).
  destruct (Prim2SF y) as [s|s| |s m e]; reflexivity.
Qed.

Lemma no_vertical_edges_no_chart a :
  Np.sum (Np.abs (Np.diff_axis0 a)) = 0 → chart_heuristic a = (false, None).
Proof.
  intros Hsum. unfold chart_heuristic, edge_ratio. cbv zeta. rewrite Hsum.
  change (Np.to_float 0) with 0%float.
  rewrite zero_ratio_below_half, andb_false_l, andb_false_r. reflexivity.
Qed.

Lemma sum_list_zeros l : Forall (λ v, v = 0) l → Np.sum_list l = 0.
Proof. induction 1 as [|v l -> _ IH]; simpl; [reflexivity | exact IH]. Qed.

Lemma sum_zeros a :
  Forall (Forall (Forall (λ v, v = 0))) a → Np.sum a = 0.
Proof.
  intros Ha. unfold Np.sum. rewrite sum_list_zeros; [reflexivity|].
  apply Forall_map. eapply Forall_impl; [exact Ha|]. intros row Hrow.
  apply sum_list_zeros, Forall_map.
  eapply Forall_impl; [exact Hrow|]. intros p. apply sum_list_zeros.
Qed.

Lemma diff_pixel_self p : Forall (λ v, v = 0) (Np.diff_pixel p p).
Proof.
  unfold Np.diff_pixel. induction p as [|v p IH]; simpl; constructor;
    [unfold Np.u8_sub; rewrite Z.sub_diag; reflexivity | exact IH].
Qed.

Lemma diff_row_self row :
  Forall (Forall (λ v, v = 0)) (zip_with Np.diff_pixel row row).
Proof.
  induction row as [|p row IH]; simpl; constructor;
    [apply diff_pixel_self | exact IH].
Qed.

Lemma diff_axis0_equal_rows row a :
  Forall (λ r, r = row) a →
  Forall (Forall (Forall (λ v, v = 0))) (Np.diff_axis0 a).
Proof.
  unfold Np.diff_axis0. intros Ha.
  assert (Ht : Forall (λ r, r = row) (tail a)).
  { destruct Ha; simpl; [constructor | assumption]. }
  revert Ht. generalize (tail a) as b.
  induction Ha as [|r a -> _ IH]; intros b Hb; simpl; [constructor|].
  destruct Hb as [|r' b -> Hb]; [constructor|].
  constructor; [apply diff_row_self | apply IH, Hb].
Qed.

(** X13: an image whose pixel rows are all equal (a single row, a flat
    colour, vertical stripes) is never classified as a chart, whatever its
    number of channels: the sum of the differences between vertically
    adjacent pixels is zero, and so is the edge ratio. *)
Theorem equal_rows_never_chart `{Externals} image depth a row :
  np_array image = Ok (Array3 depth a) →
  Forall (λ r, r = row) a →
  detect_charts image = (false, None).
Proof.
  intros Harr Hrows. unfold detect_charts. rewrite Harr. simpl.
  destruct (bool_decide (depth = 1%nat)); [reflexivity|].
  apply no_vertical_edges_no_chart, sum_zeros.
  destruct (bool_decide (depth = 4%nat)).
  - apply (diff_axis0_equal_rows (map (take 3) row)).
    unfold Np.first3. apply Forall_map.
    eapply Forall_impl; [exact Hrows|]. intros r ->. reflexivity.
  - exact (diff_axis0_equal_rows row a Hrows).
Qed.

Lemma equal_rows_never_chart_witness :
  let ext := Sample.externals (Ok []) in
  detect_charts {| im_mode := py "RGB"; im_width := 1; im_height := 1;
                   im_fp := [Byte.x07] |} = (false, None).
Proof.
  intros ext.
  refine (equal_rows_never_chart _ 3 [ [ [7; 7; 7] ] ] [ [7; 7; 7] ] _ _).
  - reflexivity.
  - repeat constructor.
Defined.

(** ** The view *)

Lemma analyze_combined_text text_by_page :
  (analyze_document_structure text_by_page).2 = concat text_by_page.
Proof.
  unfold analyze_document_structure. cbn [snd].
  rewrite pages_loop_combined. reflexivity.
Qed.

Section ViewFacts.
Context {ext : Externals}.

Lemma analyze_pdf_success request_file r :
  analyze_pdf request_file = Analysis r →
  ∃ file doc,
    request_file = Some file
    ∧ fs_filename file ≠ []
    ∧ file_save (upload_path file) (fs_stream file) = Ok ()
    ∧ fitz_open (fs_stream file) = Ok doc
    ∧ r = {| filename := secure_filename (fs_filename file);
             summary := summarize_text (concat (get_text <$> doc));
             structure := (analyze_document_structure (get_text <$> doc)).1;
             entities := extract_entities (concat (get_text <$> doc));
             images := classify_image <$> records (enumerate_images 0 doc);
             page_count := length (get_text <$> doc);
             text_by_page := get_text <$> doc |}.
Proof.
  unfold analyze_pdf. destruct request_file as [file|]; [|discriminate].
  destruct (bool_decide (fs_filename file = [])) eqn:Hname; [discriminate|].
  apply bool_decide_eq_false in Hname.
  fold (upload_path file).
  destruct (file_save (upload_path file) (fs_stream file)) as [[]|] eqn:Hsave;
    cbn [mbind result_bind]; [|discriminate].
  unfold extract_text_from_pdf.
  destruct (fitz_open (fs_stream file)) as [doc|] eqn:Hopen;
    cbn [mbind result_bind mret result_ret]; [|discriminate].
  rewrite (extract_images_records _ _ Hopen).
  pose proof (analyze_combined_text (map get_text doc)) as Hc.
  destruct (analyze_document_structure (map get_text doc))
    as [s combined] eqn:Hs.
  simpl in Hc. subst combined.
  intros [= <-]. exists file, doc.
  split; [reflexivity|]. split; [exact Hname|]. split; [exact Hsave|].
  split; [exact Hopen|].
  change (get_text <$> doc) with (map get_text doc). rewrite Hs. reflexivity.
Qed.

End ViewFacts.

(** X14: the view answers with a client error exactly in two cases, and
    before any library is called: the request has no part named file (No
    file part), or the uploaded file has an empty name (No selected file). *)
Theorem bad_request_cases `{Externals} request_file error :
  analyze_pdf request_file = BadRequest error ↔
  (request_file = None ∧ error = py "No file part")
  ∨ (∃ file, request_file = Some file ∧ fs_filename file = []
             ∧ error = py "No selected file").
Proof.
  unfold analyze_pdf. destruct request_file as [file|].
  - destruct (bool_decide (fs_filename file = [])) eqn:Hname.
    + apply bool_decide_eq_true in Hname. split.
      * intros [= <-]. right. exists file. auto.
      * intros [[? _]|(f & [= <-] & _ & ->)]; [discriminate | reflexivity].
    + apply bool_decide_eq_false in Hname. split.
      * destruct (file_save _ _ ≫= _); [|discriminate].
        destruct (analyze_document_structure _).
        destruct (extract_images_from_pdf _); discriminate.
      * intros [[? _]|(f & [= <-] & Hf & _)]; [discriminate | contradiction].
  - split.
    + intros [= <-]. left. auto.
    + intros [[_ ->]|(f & ? & _)]; [reflexivity | discriminate].
Qed.

(** X15: an analysis is returned only for a request whose upload was saved
    and whose saved file opened as a document; when saving the upload
    raises, or when the saved file does not open, that exception leaves the
    view and no analysis is returned. *)
Theorem unopened_document_fails_request `{Externals} file :
  fs_filename file ≠ [] →
  (∀ r, analyze_pdf (Some file) = Analysis r →
        file_save (upload_path file) (fs_stream file) = Ok ()
        ∧ ∃ doc, fitz_open (fs_stream file) = Ok doc)
  ∧ (∀ e, file_save (upload_path file) (fs_stream file) = Raise e →
          analyze_pdf (Some file) = Unhandled e)
  ∧ (∀ e, file_save (upload_path file) (fs_stream file) = Ok () →
          fitz_open (fs_stream file) = Raise e →
          analyze_pdf (Some file) = Unhandled e).
Proof.
  intros Hname. split; [|split].
  - intros r Hr.
    destruct (analyze_pdf_success _ _ Hr)
      as (f & doc & [= <-] & _ & Hsave & Hopen & _). eauto.
  - intros e Hsave. unfold analyze_pdf.
    rewrite (bool_decide_eq_false_2 _ Hname). fold (upload_path file).
    rewrite Hsave. reflexivity.
  - intros e Hsave Hopen. unfold analyze_pdf.
    rewrite (bool_decide_eq_false_2 _ Hname). fold (upload_path file).
    rewrite Hsave. cbn [mbind result_bind]. unfold extract_text_from_pdf.
    rewrite Hopen. reflexivity.
Qed.

Lemma unopened_document_fails_request_witness :
  let ext := Sample.externals (Raise (Exception "cannot open broken document")) in
  analyze_pdf (Sample.upload "a.pdf")
  = Unhandled (Exception "cannot open broken document").
Proof.
  intros ext.
  destruct (unopened_document_fails_request
              {| fs_filename := py "a.pdf"; fs_stream := [] |}) as (_ & _ & Hfail).
  - discriminate.
  - apply Hfail; reflexivity.
Defined.

(** X16: in an analysis the page count, the number of page texts and the
    total_pages of the structure are all the number of pages of the
    document; the page texts are the texts of the pages in order, the file
    name is the secured upload name, and the structure is the one computed
    from the page texts. *)
Theorem analysis_is_consistent `{Externals} request_file r :
  analyze_pdf request_file = Analysis r →
  ∃ file doc,
    request_file = Some file
    ∧ fitz_open (fs_stream file) = Ok doc
    ∧ text_by_page r = get_text <$> doc
    ∧ page_count r = length doc
    ∧ length (text_by_page r) = length doc
    ∧ total_pages (structure r) = length doc
    ∧ filename r = secure_filename (fs_filename file)
    ∧ structure r = (analyze_document_structure (text_by_page r)).1.
Proof.
  intros Hr.
  destruct (analyze_pdf_success _ _ Hr)
    as (file & doc & -> & _ & _ & Hopen & ->).
  exists file, doc.
  cbn [text_by_page page_count structure filename].
  assert (Ht : total_pages (analyze_document_structure (get_text <$> doc)).1
               = length doc).
  { unfold analyze_document_structure. cbn [fst total_pages].
    apply length_fmap. }
  rewrite length_fmap. auto 10.
Qed.

Lemma analysis_is_consistent_witness :
  let ext := Sample.externals (Ok Sample.doc_mixed) in
  ∃ r, analyze_pdf (Sample.upload "a.pdf") = Analysis r
       ∧ page_count r = 2%nat ∧ total_pages (structure r) = 2%nat.
Proof.
  intros ext. eexists. split; [vm_compute; reflexivity|].
  edestruct (analysis_is_consistent (Sample.upload "a.pdf"))
    as (file & doc & Hf & Hopen & _ & Hp & _ & Ht & _);
    [vm_compute; reflexivity|].
  injection Hf as <-. injection Hopen as <-.
  split; [exact Hp | exact Ht].
Defined.

(** ** The view: classification of the extracted images *)

Section ClassificationFacts.
Context {ext : Externals}.

Lemma chart_heuristic_subtype a :
  (chart_heuristic a).1 = true ↔ (chart_heuristic a).2 ≠ None.
Proof.
  unfold chart_heuristic. cbn [fst snd].
  destruct (bool_decide _ && _).
  - split; [intros _|reflexivity].
    destruct (PrimFloat.ltb 1.2 _); [discriminate|].
    destruct (PrimFloat.ltb _ 0.8); discriminate.
  - split; [discriminate | intros Hn; contradiction].
Qed.

Lemma detect_charts_subtype image :
  (detect_charts image).1 = true ↔ (detect_charts image).2 ≠ None.
Proof.
  unfold detect_charts.
  destruct (np_array image) as [[a|depth a]|]; cbn [fst snd detect_charts_array];
    try (split; [discriminate | intros Hn; contradiction]).
  destruct (bool_decide (depth = 1%nat));
    [split; [discriminate | intros Hn; contradiction]|].
  apply chart_heuristic_subtype.
Qed.

Lemma classify_image_flags d :
  chart_type d = None →
  (∃ b, is_chart (classify_image d) = Some b)
  ∧ (is_chart (classify_image d) = Some true
     ↔ chart_type (classify_image d) ≠ None).
Proof.
  intros Hfresh. unfold classify_image.
  destruct (b64decode (base64 d)) as [img_bytes|]; cbn [mbind result_bind].
  2: { cbn. rewrite Hfresh. split; [eauto|]. split; [discriminate | contradiction]. }
  destruct (Image_open img_bytes) as [img|]; cbn [mbind result_bind].
  2: { cbn. rewrite Hfresh. split; [eauto|]. split; [discriminate | contradiction]. }
  unfold mret, result_ret.
  pose proof (detect_charts_subtype img) as Hdet.
  destruct (detect_charts img) as [b [k|]]; cbn in *.
  - split; [eauto|]. split; [discriminate|]. intros _.
    f_equal. apply Hdet. discriminate.
  - rewrite Hfresh. split; [eauto|]. split; [|contradiction].
    intros [= ->]. apply Hdet. reflexivity.
Qed.

Lemma classify_image_fields d : same_extracted_fields d (classify_image d).
Proof.
  unfold classify_image, same_extracted_fields.
  destruct (b64decode (base64 d) ≫= _) as [[b [k|]]|]; cbn; auto 10.
Qed.

End ClassificationFacts.

(** X17: in an analysis every image record carries an is_chart flag, and it
    has a chart_type entry exactly when the flag is true: a chart always
    comes with its subtype. *)
Theorem every_image_is_flagged `{Externals} request_file r :
  analyze_pdf request_file = Analysis r →
  Forall (λ d, (∃ b, is_chart d = Some b)
               ∧ (is_chart d = Some true ↔ chart_type d ≠ None))
    (images r).
Proof.
  intros Hr.
  destruct (analyze_pdf_success _ _ Hr) as (file & doc & _ & _ & _ & _ & ->).
  cbn [images]. apply Forall_forall. intros d' Hd'.
  apply list_elem_of_fmap in Hd' as (d & -> & Hd).
  apply classify_image_flags. exact (proj2 (records_fresh _ _ Hd)).
Qed.

Lemma every_image_is_flagged_witness :
  let ext := Sample.externals (Ok Sample.doc_mixed) in
  ∃ r, analyze_pdf (Sample.upload "a.pdf") = Analysis r
       ∧ is_chart <$> images r
         = [Some true; Some true; Some false; Some false]
       ∧ Forall (λ d, (∃ b, is_chart d = Some b)
                      ∧ (is_chart d = Some true ↔ chart_type d ≠ None))
           (images r).
Proof.
  intros ext. eexists. split; [vm_compute; reflexivity|].
  split; [reflexivity|].
  refine (every_image_is_flagged (Sample.upload "a.pdf") _ _).
  vm_compute. reflexivity.
Defined.

(** X18: classification neither drops nor reorders nor alters what image
    extraction returned: the images of an analysis are the extracted
    records, one for one and in the same order, with the same page,
    position, encoded pixels, size, format and recognized text; their page
    numbers never decrease along the list and lie between 1 and the page
    count. *)
Theorem classification_keeps_records `{Externals} request_file r :
  analyze_pdf request_file = Analysis r →
  ∃ file extracted,
    request_file = Some file
    ∧ extract_images_from_pdf (fs_stream file) = Ok extracted
    ∧ Forall2 same_extracted_fields extracted (images r)
    ∧ StronglySorted le (page <$> images r)
    ∧ Forall (λ d, (1 ≤ page d ≤ page_count r)%nat) (images r).
Proof.
  intros Hr.
  destruct (analyze_pdf_success _ _ Hr)
    as (file & doc & -> & _ & _ & Hopen & ->).
  exists file, (records (enumerate_images 0 doc)). cbn [images page_count].
  split; [reflexivity|]. split; [exact (extract_images_records _ _ Hopen)|].
  assert (Hpages : page <$> (classify_image <$> records (enumerate_images 0 doc))
                   = page <$> records (enumerate_images 0 doc)).
  { rewrite <- list_fmap_compose. apply list_fmap_ext. intros _ d _.
    exact (proj1 (classify_image_fields d)). }
  split; [|split].
  - apply Forall2_fmap_r, Forall_Forall2_diag, Forall_forall.
    intros d _. apply classify_image_fields.
  - rewrite Hpages. apply records_sorted, enumerate_images_sorted.
  - apply Forall_forall. intros d' Hd'.
    apply list_elem_of_fmap in Hd' as (d & -> & Hd).
    rewrite (proj1 (classify_image_fields d)).
    apply list_elem_of_omap in Hd as (x & Hx & Hrec).
    rewrite (record_of_page _ _ Hrec), length_fmap.
    apply enumerate_images_range in Hx. lia.
Qed.

Lemma classification_keeps_records_witness :
  let ext := Sample.externals (Ok Sample.doc_mixed) in
  ∃ r, analyze_pdf (Sample.upload "a.pdf") = Analysis r
       ∧ page <$> images r = [1; 1; 2; 2]%nat
       ∧ StronglySorted le (page <$> images r).
Proof.
  intros ext. eexists. split; [vm_compute; reflexivity|].
  split; [reflexivity|].
  edestruct (classification_keeps_records (Sample.upload "a.pdf"))
    as (file & extracted & _ & _ & _ & Hsorted & _);
    [vm_compute; reflexivity|].
  exact Hsorted.
Defined.

(** ** The front end *)

Lemma chart_count_from total images :
  fold_left (λ total img,
               if Frontend.get_is_chart img then (total + 1)%nat else total)
    images total
  = (total + length (Frontend.charts images))%nat.
Proof.
  revert total. induction images as [|img images IH]; intros total; simpl.
  - lia.
  - rewrite IH. unfold Frontend.charts. simpl.
    destruct (Frontend.get_is_chart img); simpl; lia.
Qed.

Lemma filter_sublist {A} (f : A → bool) l : List.filter f l `sublist_of` l.
Proof.
  induction l as [|x l IH]; simpl; [constructor|].
  destruct (f x); [apply sublist_skip | apply sublist_cons]; exact IH.
Qed.

(** X19: the Images tab splits the images into charts and other images
    without losing or repeating one: every image is in exactly one of the
    two lists, both keep the order of the payload, their lengths add up to
    the number of images, and the chart count of the Overview tab is the
    number of charts. *)
Theorem charts_and_images_partition images :
  Frontend.chart_count images = length (Frontend.charts images)
  ∧ (length (Frontend.charts images)
     + length (Frontend.regular_images images) = length images)%nat
  ∧ Frontend.charts images `sublist_of` images
  ∧ Frontend.regular_images images `sublist_of` images
  ∧ (∀ img, img ∈ images →
       (img ∈ Frontend.charts images
        ∧ img ∉ Frontend.regular_images images)
       ∨ (img ∈ Frontend.regular_images images
          ∧ img ∉ Frontend.charts images)).
Proof.
  split; [apply (chart_count_from 0)|].
  split; [apply List.filter_length|].
  split; [apply filter_sublist|]. split; [apply filter_sublist|].
  intros img Himg. unfold Frontend.charts, Frontend.regular_images.
  rewrite !list_elem_of_In, !List.filter_In, <- !list_elem_of_In.
  destruct (Frontend.get_is_chart img); simpl.
  - left. split; [auto|]. intros [_ ?]. discriminate.
  - right. split; [auto|]. intros [_ ?]. discriminate.
Qed.

(** X20: for a payload of the view, every image that the Images tab shows
    as a chart has a chart_type entry, so its chart type is never shown as
    Unknown; every other image has is_chart false and no chart_type. *)
Theorem shown_charts_have_a_type `{Externals} request_file r :
  analyze_pdf request_file = Analysis r →
  (∀ img, img ∈ Frontend.charts (images r) →
     is_chart img = Some true
     ∧ (∃ k, chart_type img = Some k)
     ∧ Frontend.get_chart_type img ≠ py "Unknown")
  ∧ (∀ img, img ∈ Frontend.regular_images (images r) →
       is_chart img = Some false ∧ chart_type img = None).
Proof.
  intros Hr.
  destruct (analyze_pdf_success _ _ Hr) as (file & doc & _ & _ & _ & _ & ->).
  cbn [images].
  assert (Hflag : ∀ img,
            img ∈ classify_image <$> records (enumerate_images 0 doc) →
            (∃ b, is_chart img = Some b)
            ∧ (is_chart img = Some true ↔ chart_type img ≠ None)).
  { intros img Himg. apply list_elem_of_fmap in Himg as (d & -> & Hd).
    apply classify_image_flags. exact (proj2 (records_fresh _ _ Hd)). }
  unfold Frontend.charts, Frontend.regular_images. split.
  - intros img Himg.
    apply list_elem_of_In, List.filter_In in Himg as [Himg Hc].
    apply list_elem_of_In, Hflag in Himg as [[b Hb] Hiff].
    unfold Frontend.get_is_chart in Hc. rewrite Hb in Hc. simpl in Hc.
    subst b. split; [exact Hb|].
    apply Hiff in Hb. unfold Frontend.get_chart_type.
    destruct (chart_type img) as [k|]; [|contradiction].
    split; [eauto|]. destruct k; discriminate.
  - intros img Himg.
    apply list_elem_of_In, List.filter_In in Himg as [Himg Hc].
    apply list_elem_of_In, Hflag in Himg as [[b Hb] Hiff].
    unfold Frontend.get_is_chart in Hc. rewrite Hb in Hc. simpl in Hc.
    apply negb_true_iff in Hc. subst b. split; [exact Hb|].
    destruct (chart_type img) as [k|]; [|reflexivity].
    assert (Some false = Some true) by (rewrite <- Hb; apply Hiff; discriminate).
    discriminate.
Qed.

Lemma shown_charts_have_a_type_witness :
  let ext := Sample.externals (Ok Sample.doc_mixed) in
  ∃ r, analyze_pdf (Sample.upload "a.pdf") = Analysis r
       ∧ Frontend.get_chart_type <$> Frontend.charts (images r)
         = [py "bar_chart"; py "other_chart"]
       ∧ ∀ img, img ∈ Frontend.regular_images (images r) →
                is_chart img = Some false ∧ chart_type img = None.
Proof.
  intros ext. eexists. split; [vm_compute; reflexivity|].
  split; [reflexivity|].
  refine (proj2 (shown_charts_have_a_type (Sample.upload "a.pdf") _ _)).
  vm_compute. reflexivity.
Defined.

(** ** The search term in the page text *)

Lemma startswith_app prefix s : Str.startswith prefix (prefix ++ s) = true.
Proof.
  induction prefix as [|c prefix IH]; simpl; [reflexivity|].
  rewrite bool_decide_eq_true_2 by reflexivity. exact IH.
Qed.

Lemma contains_app_l sub s : Str.contains sub (sub ++ s) = true.
Proof.
  destruct (sub ++ s) eqn:E; simpl; rewrite <- E, startswith_app; reflexivity.
Qed.

Lemma contains_cons sub c s :
  Str.contains sub s = true → Str.contains sub (c :: s) = true.
Proof. intros Hs. simpl. rewrite Hs. apply orb_true_r. Qed.

Lemma replace_from_marks old new s :
  old ≠ [] → Str.contains old s = true →
  Str.contains new (Str.replace_from 0 old new s) = true.
Proof.
  intros Hold. induction s as [|c s IH]; intros Hs.
  - destruct old; [contradiction | discriminate].
  - cbn [Str.replace_from].
    destruct (Str.startswith old (c :: s)) eqn:Hstart.
    + apply contains_app_l.
    + apply contains_cons, IH.
      cbn [Str.contains] in Hs. rewrite Hstart in Hs. exact Hs.
Qed.

Lemma replace_marks old new s :
  old ≠ [] → Str.contains old s = true →
  Str.contains new (Str.replace old new s) = true.
Proof.
  intros Hold Hs. destruct old as [|c old]; [contradiction|].
  apply replace_from_marks; assumption.
Qed.

(** X21: the Content tab never indexes the page texts out of range, and for
    a payload of the view every page number offered by the page selector
    selects the page of that number of the document: without a search term,
    or with one that does not occur in the page, the text of the page is
    shown; with a search term that occurs in it, the copy of the text in
    which the occurrences of the term, from left to right, are put between
    asterisks is rendered, and the marked term occurs in that copy. *)
Theorem every_page_can_be_shown `{Externals} :
  (∀ data search_term selected_page,
     Frontend.page_view data search_term selected_page ≠ Frontend.IndexError)
  ∧ (∀ request_file r search_term n,
       analyze_pdf request_file = Analysis r →
       n ∈ Frontend.page_numbers r →
       ∃ file doc page,
         request_file = Some file
         ∧ fitz_open (fs_stream file) = Ok doc
         ∧ doc !! (n - 1)%nat = Some page
         ∧ (search_term = [] ∨ Str.contains search_term (get_text page) = false →
            Frontend.page_view r search_term (Some n)
            = Frontend.PageText (get_text page))
         ∧ (search_term ≠ [] →
            Str.contains search_term (get_text page) = true →
            Frontend.page_view r search_term (Some n)
            = Frontend.Markdown
                (Str.replace search_term (Frontend.bold search_term)
                   (get_text page))
            ∧ Str.contains (Frontend.bold search_term)
                (Str.replace search_term (Frontend.bold search_term)
                   (get_text page)) = true)).
Proof.
  split.
  - intros data search_term [n|]; simpl; [|discriminate].
    destruct (bool_decide (n ≠ 0%nat)) eqn:Hn; simpl; [|discriminate].
    destruct (bool_decide (n ≤ page_count data)%nat); [|discriminate].
    destruct (bool_decide (n ≤ length (text_by_page data))%nat) eqn:Hlen;
      [|discriminate].
    apply bool_decide_eq_true in Hn, Hlen.
    destruct (text_by_page data !! (n - 1)%nat) eqn:Hl.
    + unfold Frontend.show_page. destruct (_ && _); discriminate.
    + apply lookup_ge_None in Hl. lia.
  - intros request_file r search_term n Hr Hn.
    destruct (analyze_pdf_success _ _ Hr)
      as (file & doc & -> & _ & _ & Hopen & ->).
    unfold Frontend.page_numbers in Hn. cbn [page_count] in Hn.
    apply elem_of_seq in Hn. rewrite length_fmap in Hn.
    destruct (lookup_lt_is_Some_2 doc (n - 1)%nat) as [page Hpage]; [lia|].
    exists file, doc, page. split; [reflexivity|]. split; [exact Hopen|].
    split; [exact Hpage|].
    assert (Hview : ∀ data,
      page_count data = length doc → text_by_page data = get_text <$> doc →
      Frontend.page_view data search_term (Some n)
      = Frontend.show_page search_term (get_text page)).
    { intros data Hc Ht. unfold Frontend.page_view. rewrite Hc, Ht.
      rewrite length_fmap.
      rewrite (bool_decide_eq_true_2 (n ≠ 0%nat)) by lia.
      rewrite (bool_decide_eq_true_2 (n ≤ length doc)%nat) by lia.
      cbn [andb]. rewrite list_lookup_fmap, Hpage. reflexivity. }
    rewrite Hview; [|cbn [page_count]; apply length_fmap | reflexivity].
    unfold Frontend.show_page. split.
    + intros [->|Hno].
      * case_bool_decide as Hne; [exfalso; apply Hne|]; reflexivity.
      * rewrite Hno, andb_false_r. reflexivity.
    + intros Hterm Hocc.
      rewrite (bool_decide_eq_true_2 _ Hterm), Hocc. cbn [andb].
      split; [reflexivity|]. apply replace_marks; assumption.
Qed.

Lemma every_page_can_be_shown_witness :
  let ext := Sample.externals (Ok Sample.doc_mixed) in
  ∃ r, analyze_pdf (Sample.upload "a.pdf") = Analysis r
       ∧ Frontend.page_numbers r = [1; 2]%nat
       ∧ Frontend.page_view r [] (Some 2%nat) = Frontend.PageText (py "s here")
       ∧ Frontend.page_view r (py "he") (Some 2%nat)
         = Frontend.Markdown (py "s **he**re").
Proof.
  intros ext.
  pose proof (proj2 every_page_can_be_shown (Sample.upload "a.pdf")) as Hshow.
  eexists. split; [vm_compute; reflexivity|].
  split; [reflexivity|]. split.
  - edestruct Hshow with (search_term := @nil ascii) (n := 2%nat)
      as (file & doc & page & Hf & Hopen & Hpage & Hplain & _);
      [vm_compute; reflexivity | |].
    + vm_compute. right. left.
    + injection Hf as <-. injection Hopen as <-. injection Hpage as <-.
      apply Hplain. left. reflexivity.
  - edestruct Hshow with (search_term := py "he") (n := 2%nat)
      as (file & doc & page & Hf & Hopen & Hpage & _ & Hmark);
      [vm_compute; reflexivity | |].
    + vm_compute. right. left.
    + injection Hf as <-. injection Hopen as <-. injection Hpage as <-.
      apply Hmark; [discriminate | reflexivity].
Defined.

(** ** The front end: entities by category *)

Lemma group_step_lookup m e c :
  Frontend.group_step m e !! c
  = if bool_decide (label e = c)
    then Some (default [] (m !! c) ++ [text e])
    else m !! c.
Proof.
  unfold Frontend.group_step. cbv zeta.
  destruct (bool_decide (label e = c)) eqn:Hc.
  - apply bool_decide_eq_true in Hc. subst c.
    rewrite lookup_alter_eq.
    destruct (m !! label e) as [texts|] eqn:Hm.
    + rewrite Hm. reflexivity.
    + rewrite lookup_insert_eq. reflexivity.
  - apply bool_decide_eq_false in Hc.
    rewrite lookup_alter_ne by exact Hc.
    destruct (m !! label e); [reflexivity|].
    apply lookup_insert_ne. exact Hc.
Qed.

Lemma group_loop_lookup entities m c :
  fold_left Frontend.group_step entities m !! c
  = match map text (List.filter (λ e, bool_decide (label e = c)) entities) with
    | [] => m !! c
    | texts => Some (default [] (m !! c) ++ texts)
    end.
Proof.
  revert m. induction entities as [|e entities IH]; intros m; simpl.
  - reflexivity.
  - rewrite IH, group_step_lookup.
    destruct (bool_decide (label e = c)); simpl.
    + destruct (map text _) as [|t texts]; [reflexivity|].
      rewrite <- app_assoc. reflexivity.
    + reflexivity.
Qed.

(** X22: the loop that groups the entities by category builds, for every
    label, the texts of the entities with that label in the order of the
    payload; a label of no entity is not a key of the dictionary. *)
Theorem entities_grouped_by_label entities c :
  Frontend.entity_categories entities !! c
  = match map text (List.filter (λ e, bool_decide (label e = c)) entities) with
    | [] => None
    | texts => Some texts
    end.
Proof.
  unfold Frontend.entity_categories. rewrite group_loop_lookup.
  destruct (map text _); [apply lookup_empty|].
  rewrite lookup_empty. reflexivity.
Qed.

Lemma category_texts entities c t :
  t ∈ default [] (Frontend.entity_categories entities !! c)
  ↔ ∃ e, e ∈ entities ∧ label e = c ∧ text e = t.
Proof.
  unfold Frontend.entity_categories. rewrite group_loop_lookup, lookup_empty.
  assert (Hin : t ∈ map text
                      (List.filter (λ e, bool_decide (label e = c)) entities)
                ↔ ∃ e, e ∈ entities ∧ label e = c ∧ text e = t).
  { rewrite list_elem_of_fmap. split.
    - intros (e & -> & He).
      apply list_elem_of_In, List.filter_In in He as [He Hc].
      apply bool_decide_eq_true in Hc. apply list_elem_of_In in He. eauto.
    - intros (e & He & Hc & <-). exists e. split; [reflexivity|].
      apply list_elem_of_In, List.filter_In. split.
      + apply list_elem_of_In, He.
      + apply bool_decide_eq_true, Hc. }
  destruct (map text _) as [|t0 texts]; simpl in *; exact Hin.
Qed.

Lemma category_is_key entities c :
  is_Some (Frontend.entity_categories entities !! c)
  ↔ ∃ e, e ∈ entities ∧ label e = c.
Proof.
  unfold Frontend.entity_categories. rewrite group_loop_lookup, lookup_empty.
  destruct (map text _) as [|t0 texts] eqn:Hm.
  - split; [intros [? ?]; discriminate|].
    intros (e & He & Hc). exfalso.
    assert (Hin : text e ∈ map text
              (List.filter (λ e, bool_decide (label e = c)) entities)).
    { apply list_elem_of_fmap. exists e. split; [reflexivity|].
      apply list_elem_of_In, List.filter_In. split.
      + apply list_elem_of_In, He.
      + apply bool_decide_eq_true, Hc. }
    rewrite Hm in Hin. inversion Hin.
  - split; [intros _|eauto].
    assert (Hin : t0 ∈ map text
              (List.filter (λ e, bool_decide (label e = c)) entities))
      by (rewrite Hm; left).
    apply list_elem_of_fmap in Hin as (e & _ & He).
    apply list_elem_of_In, List.filter_In in He as [He Hc].
    apply bool_decide_eq_true in Hc. apply list_elem_of_In in He. eauto.
Qed.

#[local] Instance str_le_total : Total Frontend.str_le.
Proof.
  unfold Total, Frontend.str_le. intros a.
  induction a as [|x a IH]; intros b; [left; reflexivity|].
  destruct b as [|y b]; [right; reflexivity|]. simpl.
  destruct (N.ltb_spec (Char.code x) (Char.code y)); [left; reflexivity|].
  destruct (N.ltb_spec (Char.code y) (Char.code x)); [right; reflexivity|].
  assert (E : Char.code x = Char.code y) by lia.
  rewrite E, N.eqb_refl. apply IH.
Qed.

Lemma sorted_set_elements texts t : t ∈ Frontend.sorted_set texts ↔ t ∈ texts.
Proof.
  unfold Frontend.sorted_set.
  rewrite merge_sort_Permutation. apply elem_of_remove_dups.
Qed.

(** X23: in the Entities tab every entity of the payload is shown, under
    exactly one heading: its text is among the entities shown for its
    label, and its label is listed among the known categories when it is
    one of the seven of the category order and among the other categories
    otherwise, never in both. *)
Theorem every_entity_is_shown entities e :
  e ∈ entities →
  let m := Frontend.entity_categories entities in
  text e ∈ Frontend.shown_entities m (label e)
  ∧ (label e ∈ Frontend.category_order →
     label e ∈ Frontend.known_categories m
     ∧ label e ∉ Frontend.other_categories m)
  ∧ (label e ∉ Frontend.category_order →
     label e ∈ Frontend.other_categories m
     ∧ label e ∉ Frontend.known_categories m).
Proof.
  intros He m.
  assert (Hkey : is_Some (m !! label e)) by (apply category_is_key; eauto).
  unfold Frontend.shown_entities, Frontend.known_categories,
    Frontend.other_categories.
  split; [|split].
  - apply sorted_set_elements, category_texts. eauto.
  - intros Hknown. split.
    + apply list_elem_of_In, List.filter_In. split.
      * apply list_elem_of_In, Hknown.
      * apply bool_decide_eq_true, Hkey.
    + intros Hin. apply list_elem_of_In, List.filter_In in Hin as [_ Hin].
      apply negb_true_iff, bool_decide_eq_false in Hin. contradiction.
  - intros Hother. split.
    + apply list_elem_of_In, List.filter_In. split.
      * apply list_elem_of_In. rewrite merge_sort_Permutation.
        apply elem_of_elements, elem_of_dom, Hkey.
      * apply negb_true_iff, bool_decide_eq_false, Hother.
    + intros Hin. apply list_elem_of_In, List.filter_In in Hin as [Hin _].
      apply list_elem_of_In in Hin. contradiction.
Qed.

Lemma every_entity_is_shown_witness :
  let entities := [ {| text := py "Ada"; label := py "PERSON" |};
                    {| text := py "42 km"; label := py "QUANTITY" |};
                    {| text := py "Ada"; label := py "PERSON" |} ] in
  let m := Frontend.entity_categories entities in
  py "42 km" ∈ Frontend.shown_entities m (py "QUANTITY")
  ∧ py "QUANTITY" ∈ Frontend.other_categories m.
Proof.
  intros entities m.
  destruct (every_entity_is_shown entities
              {| text := py "42 km"; label := py "QUANTITY" |})
    as (Hshown & _ & Hother).
  - right. left.
  - split; [exact Hshown|]. apply Hother.
    intros Hin. apply (proj1 (list_elem_of_In _ _)) in Hin.
    vm_compute in Hin. intuition discriminate.
Defined.

(** X24: the entities shown for a category are exactly the texts of the
    entities of the payload with that label, each once, in the order of
    Python on strings. *)
Theorem shown_entities_are_sorted_texts entities c :
  let shown :=
    Frontend.shown_entities (Frontend.entity_categories entities) c in
  Sorted Frontend.str_le shown
  ∧ NoDup shown
  ∧ (∀ t, t ∈ shown ↔ ∃ e, e ∈ entities ∧ label e = c ∧ text e = t).
Proof.
  unfold Frontend.shown_entities. split; [|split].
  - apply Sorted_merge_sort. apply str_le_total.
  - unfold Frontend.sorted_set. rewrite merge_sort_Permutation.
    apply NoDup_remove_dups.
  - intros t. rewrite sorted_set_elements. apply category_texts.
Qed.
